(** * Schedulum: validation rules of the [schedules] application

    A shallow embedding of [schedules/mixins.py], [schedules/validators.py]
    and of [ScheduleChangeMixin.get_object] from [schedules/views.py].

    - Python exceptions are the [Raise] branch of a small error monad.
    - A [datetime.date] is its proleptic Gregorian ordinal
      ([date.toordinal()]), so that comparison, subtraction and
      [weekday()] are integer arithmetic.
    - A database table is the list of its rows in query order; a Django
      [filter(...).first()] is [List.find], a [filter(...)] that is
      iterated is [List.filter]. *)

From Stdlib Require Import ZArith List Bool String Ascii Lia.
Import ListNotations.
Open Scope Z_scope.

(** ** Exceptions and the error monad *)

(** The texts handed to [ValidationError]; the constructor names follow the
    error taxonomy, the comments recall the source. *)
Inductive message : Type :=
| MissingParent (field : string)       (* ERROR_HIGHER_OBJ_SAMPLE.format(field=field) *)
| WrongMonthLength_weeks               (* all weeks of the interval must hold 7 days *)
| WrongMonthLength_count               (* the interval must hold 4 or 5 weeks *)
| WrongWeekLength                      (* a week must hold 7 days *)
| OverlappingInterval (field : string) (* error_sample.format(field=field) *)
| InvalidInterval                      (* the end must be later than the start *)
| IncompleteRepetition                 (* rate and count must both be given *)
| ScheduleCollision                    (* falls on the day of another schedule *)
| NoSuchWeek                           (* add or repeat on a week that does not exist *)
| NonSchoolDay                         (* Sunday *)
| PastDateRejected                     (* a past month cannot be chosen *)
| NonInstructionalPeriod               (* INVALID_PAST_ERROR *)
| NotExistWeek.                        (* NOT_EXIST_WEEK_ERROR *)

Inductive exn : Type :=
| ValidationError (messages : list message)
| ValueError
| OverflowError
| Http404
| MultipleObjectsReturned.

Inductive result (A : Type) : Type :=
| Ok (a : A)
| Raise (e : exn).
Arguments Ok {A} a.
Arguments Raise {A} e.

Definition bind {A B : Type} (m : result A) (k : A -> result B) : result B :=
  match m with
  | Ok a => k a
  | Raise e => Raise e
  end.

Notation "x <- m ;; k" := (bind m (fun x => k))
  (at level 61, m at next level, right associativity).
Notation "m ;;; k" := (bind m (fun _ => k))
  (at level 61, right associativity).

(** [for x in l: body(x)], stopping at the first exception. *)
Fixpoint for_each {A : Type} (l : list A) (body : A -> result unit) : result unit :=
  match l with
  | [] => Ok tt
  | x :: l' => body x ;;; for_each l' body
  end.

(** [[f(x) for x in l]], stopping at the first exception. *)
Fixpoint map_each {A B : Type} (l : list A) (f : A -> result B) : result (list B) :=
  match l with
  | [] => Ok []
  | x :: l' => y <- f x ;; ys <- map_each l' f ;; Ok (y :: ys)
  end.

(** Python truthiness of an optional integer field: [None] and [0] are false. *)
Definition truthy (v : option Z) : bool :=
  match v with
  | None => false
  | Some n => negb (n =? 0)
  end.

(** [range(a, b)] *)
Definition range (a b : Z) : list Z :=
  map (fun i => a + Z.of_nat i) (seq 0 (Z.to_nat (b - a))).

(** ** [datetime]: dates as ordinals *)

Module Datetime.

Definition date : Type := Z.

Definition MINYEAR : Z := 1.
Definition MAXYEAR : Z := 9999.
(** [date.max.toordinal()] *)
Definition MAXORDINAL : Z := 3652059.

Definition valid_date (d : date) : Prop := 1 <= d <= MAXORDINAL.

Definition is_leap (year : Z) : bool :=
  (year mod 4 =? 0) && (negb (year mod 100 =? 0) || (year mod 400 =? 0)).

Definition days_before_year (year : Z) : Z :=
  let y := year - 1 in y * 365 + y / 4 - y / 100 + y / 400.

Definition DAYS_IN_MONTH : list Z :=
  [-1; 31; 28; 31; 30; 31; 30; 31; 31; 30; 31; 30; 31].

Definition DAYS_BEFORE_MONTH : list Z :=
  [-1; 0; 31; 59; 90; 120; 151; 181; 212; 243; 273; 304; 334].

Definition days_in_month (year month : Z) : Z :=
  if (month =? 2) && is_leap year then 29
  else nth (Z.to_nat month) DAYS_IN_MONTH 0.

Definition days_before_month (year month : Z) : Z :=
  nth (Z.to_nat month) DAYS_BEFORE_MONTH 0
  + (if (2 <? month) && is_leap year then 1 else 0).

Definition ymd2ord (year month day : Z) : Z :=
  days_before_year year + days_before_month year month + day.

(** [datetime.date(year, month, day)] *)
Definition mk_date (year month day : Z) : result date :=
  if (MINYEAR <=? year) && (year <=? MAXYEAR)
     && (1 <=? month) && (month <=? 12)
     && (1 <=? day) && (day <=? days_in_month year month)
  then Ok (ymd2ord year month day)
  else Raise ValueError.

Definition DI400Y : Z := 146097.
Definition DI100Y : Z := 36524.
Definition DI4Y : Z := 1461.

(** [d.year]: the year component of the ordinal-to-date conversion. *)
Definition year (d : date) : Z :=
  let n := d - 1 in
  let n400 := n / DI400Y in
  let n := n mod DI400Y in
  let n100 := n / DI100Y in
  let n := n mod DI100Y in
  let n4 := n / DI4Y in
  let n := n mod DI4Y in
  let n1 := n / 365 in
  let y := n400 * 400 + 1 + n100 * 100 + n4 * 4 + n1 in
  if (n1 =? 4) || (n100 =? 4) then y - 1 else y.

(** [d.weekday()]: Monday is 0, Sunday is 6. *)
Definition weekday (d : date) : Z := (d + 6) mod 7.

(** [datetime.timedelta(days=n)], as its number of days. *)
Definition timedelta (days : Z) : result Z :=
  if Z.abs days <=? 999999999 then Ok days else Raise OverflowError.

(** [d + delta] *)
Definition add (d : date) (delta : Z) : result date :=
  let o := d + delta in
  if (0 <? o) && (o <=? MAXORDINAL) then Ok o else Raise OverflowError.

(** [(a - b).days] *)
Definition sub_days (a b : date) : Z := a - b.

End Datetime.

(** ** The tables *)

(** A primary key is [None] on an instance that was never saved; every row
    read from a table carries [Some] key. *)
Record Year : Type :=
  { year_pk : option Z; year_year : Z }.

Record Month : Type :=
  { month_pk : option Z; month_start : Datetime.date; month_end : Datetime.date;
    month_year : option Z }.

Record Week : Type :=
  { week_pk : option Z; week_start : Datetime.date; week_end : Datetime.date;
    week_month : option Z }.

Record Schedule : Type :=
  { pk : option Z;
    date : Datetime.date;
    author : Z;
    week : option Z;
    repetition_rate : option Z;
    repetition_count : option Z }.

(** The rows of each table, in the order in which a query yields them. *)
Record DB : Type :=
  { years : list Year;
    months : list Month;
    weeks : list Week;
    schedules : list Schedule }.

(** [Model.__eq__] of two [Schedule] instances that are distinct Python
    objects: equal primary keys, and never equal without one. *)
Definition model_eq (a b : Schedule) : bool :=
  match pk a, pk b with
  | Some p, Some q => p =? q
  | _, _ => false
  end.

(** [a != b] where [b] may be [None]. *)
Definition model_ne (a : Schedule) (b : option Schedule) : bool :=
  match b with
  | None => true
  | Some b' => negb (model_eq a b')
  end.

(** The lookup [week=week_obj] of a [filter]: the foreign key equals the
    key of [week_obj]; with [week_obj = None] it selects the null keys. *)
Definition week_is (fk : option Z) (week_obj : option Week) : bool :=
  match week_obj with
  | None => match fk with None => true | Some _ => false end
  | Some w =>
      match fk, week_pk w with
      | Some a, Some b => a =? b
      | _, _ => false
      end
  end.

Definition is_some {A : Type} (o : option A) : bool :=
  match o with Some _ => true | None => false end.

(** The names that [models.py] gives to models and fields
    ([_meta.verbose_name.title()] and [get_field(...).verbose_name]). *)
Class Meta : Type :=
  { year_verbose_name_title : string;
    month_verbose_name_title : string;
    month_start_verbose_name : string;
    month_end_verbose_name : string;
    week_start_verbose_name : string;
    week_end_verbose_name : string }.

(** What [GetModel] and the fields [start] and [end] give to the mixins
    shared by [Month] and [Week]. *)
Class IntervalModel (A : Type) : Type :=
  { objects : DB -> list A;
    start : A -> Datetime.date;
    end_ : A -> Datetime.date;
    start_verbose_name : string;
    end_verbose_name : string }.

#[export] Instance Month_model `{Meta} : IntervalModel Month :=
  { objects := months;
    start := month_start;
    end_ := month_end;
    start_verbose_name := month_start_verbose_name;
    end_verbose_name := month_end_verbose_name }.

#[export] Instance Week_model `{Meta} : IntervalModel Week :=
  { objects := weeks;
    start := week_start;
    end_ := week_end;
    start_verbose_name := week_start_verbose_name;
    end_verbose_name := week_end_verbose_name }.

(** ** [mixins.py] *)

Module TrueDiffInterval.
Section Mixin.
Context {A : Type} `{IntervalModel A}.

Definition get_true_diff (self : A) : Z :=
  let difference := Datetime.sub_days (end_ self) (start self) in
  difference + 1.

End Mixin.
End TrueDiffInterval.

Module MonthMixin.
Section Mixin.
Context `{Meta}.

Definition get_average_date (self : Month) : result Datetime.date :=
  delta <- Datetime.timedelta 15 ;;
  Datetime.add (month_start self) delta.

Definition get_related_obj (db : DB) (self : Month) : result (option Year) :=
  average_date <- get_average_date self ;;
  Ok (find (fun y => year_year y =? Datetime.year average_date) (years db)).

Definition validate_related_obj (db : DB) (self : Month) : result unit :=
  related_model_obj <- get_related_obj db self ;;
  let field := year_verbose_name_title in
  match related_model_obj with
  | None => Raise (ValidationError [MissingParent field])
  | Some _ => Ok tt
  end.

Definition validate_len_interval (self : Month) : result unit :=
  let true_diff := TrueDiffInterval.get_true_diff self in
  let count_weeks := true_diff / 7 in
  if negb (true_diff mod 7 =? 0) then
    Raise (ValidationError [WrongMonthLength_weeks])
  else if (count_weeks <? 4) || (count_weeks >? 5) then
    Raise (ValidationError [WrongMonthLength_count])
  else Ok tt.

End Mixin.
End MonthMixin.

Module ValidationMonthAndWeekIntervalMixin.
Section Mixin.
Context {A : Type} `{IntervalModel A}.

Definition validate_exist_interval (db : DB) (self : A) : result unit :=
  let start_obj :=
    find (fun o => (start o <? start self) && (end_ o >? start self)) (objects db) in
  let end_obj :=
    find (fun o => (start o <? end_ self) && (end_ o >? end_ self)) (objects db) in
  let fields := [start_verbose_name; end_verbose_name] in
  let objs := [start_obj; end_obj] in
  let zipped := combine fields objs in
  if is_some start_obj || is_some end_obj then
    let error_message :=
      map (fun fo => OverlappingInterval (fst fo))
          (filter (fun fo => is_some (snd fo)) zipped) in
    Raise (ValidationError error_message)
  else Ok tt.

Definition validate_incorrect_interval (self : A) : result unit :=
  if start self >=? end_ self then Raise (ValidationError [InvalidInterval])
  else Ok tt.

Definition validate_interval (db : DB) (self : A) : result unit :=
  validate_incorrect_interval self ;;;
  validate_exist_interval db self.

End Mixin.
End ValidationMonthAndWeekIntervalMixin.

Module ScheduleMixin.

Definition get_related_obj (db : DB) (d : Datetime.date) : option Week :=
  find (fun w => (week_start w <=? d) && (week_end w >=? d)) (weeks db).

Definition get_related_week_objects (db : DB) (self : Schedule)
  : result (list (option Week)) :=
  week_objects <-
    (if truthy (repetition_rate self) && truthy (repetition_count self) then
       match repetition_rate self, repetition_count self with
       | Some rate, Some count =>
           map_each (range 1 (count + 1)) (fun repeat =>
             delta <- Datetime.timedelta ((7 * rate) * repeat) ;;
             new_date <- Datetime.add (date self) delta ;;
             Ok (get_related_obj db new_date))
       | _, _ => Ok []
       end
     else Ok []) ;;
  let basic_week_obj := get_related_obj db (date self) in
  Ok (week_objects ++ [basic_week_obj]).

Definition validate_empty_repetition (self : Schedule) : result unit :=
  let repetition_list := [repetition_rate self; repetition_count self] in
  if existsb truthy repetition_list && negb (forallb truthy repetition_list) then
    Raise (ValidationError [IncompleteRepetition])
  else Ok tt.

Definition validate_exist_schedule (db : DB) (self : Schedule) : result unit :=
  let current_schedule :=
    find (fun x => (date x =? date self) && (author x =? author self))
         (schedules db) in
  week_objects <- get_related_week_objects db self ;;
  for_each week_objects (fun week_obj =>
    let schedule_objs :=
      filter (fun x => (author x =? author self) && week_is (week x) week_obj)
             (schedules db) in
    for_each schedule_objs (fun schedule =>
      if (Datetime.weekday (date schedule) =? Datetime.weekday (date self))
         && model_ne schedule current_schedule
      then Raise (ValidationError [ScheduleCollision])
      else Ok tt)).

Definition validate_exist_weeks (db : DB) (self : Schedule) : result unit :=
  week_objs <- get_related_week_objects db self ;;
  if existsb (fun o => negb (is_some o)) week_objs then
    Raise (ValidationError [NoSuchWeek])
  else Ok tt.

Definition validate_sunday (self : Schedule) : result unit :=
  if Datetime.weekday (date self) =? 6 then
    Raise (ValidationError [NonSchoolDay])
  else Ok tt.

End ScheduleMixin.

Module WeekMixin.
Section Mixin.
Context `{Meta}.

Definition get_related_obj (db : DB) (self : Week) : option Month :=
  find (fun m => (month_start m <=? week_start self)
                 && (month_end m >=? week_start self)) (months db).

Definition validate_related_obj (db : DB) (self : Week) : result unit :=
  let related_model_obj := get_related_obj db self in
  let field := month_verbose_name_title in
  match related_model_obj with
  | None => Raise (ValidationError [MissingParent field])
  | Some _ => Ok tt
  end.

Definition validate_len_interval (self : Week) : result unit :=
  let true_diff := TrueDiffInterval.get_true_diff self in
  if negb (true_diff =? 7) then Raise (ValidationError [WrongWeekLength])
  else Ok tt.

End Mixin.
End WeekMixin.

(** ** [validators.py] *)

(** [settings.VALIDATE_DATES]: the dictionary of the bounds of the July and
    August windows, one field per key. *)
Record ValidateDates : Type :=
  { CURRENT_JULY : Datetime.date;
    CURRENT_AUGUST : Datetime.date;
    NEXT_JULY : Datetime.date;
    NEXT_AUGUST : Datetime.date;
    CURRENT_START_JULY : Datetime.date;
    CURRENT_END_AUGUST : Datetime.date;
    NEXT_START_JULY : Datetime.date;
    NEXT_END_AUGUST : Datetime.date }.

(** The values read from [django.conf.settings]. *)
Class Settings : Type :=
  { CURRENT_MONTH : Z;
    CURRENT_YEAR : Z;
    DATES : ValidateDates }.

Module Validators.
Section Configured.
Context `{Settings}.

Definition correct_start (d : Datetime.date) : result Datetime.date :=
  correct_month <- Datetime.mk_date CURRENT_YEAR CURRENT_MONTH 1 ;;
  if d <? correct_month then Raise (ValidationError [PastDateRejected])
  else if ((CURRENT_JULY DATES <? d) && (d <? CURRENT_AUGUST DATES))
          || ((NEXT_JULY DATES <? d) && (d <? NEXT_AUGUST DATES))
  then Raise (ValidationError [NonInstructionalPeriod])
  else Ok d.

Definition correct_end (d : Datetime.date) : result Datetime.date :=
  if ((CURRENT_START_JULY DATES <? d) && (d <? CURRENT_END_AUGUST DATES))
     || ((NEXT_START_JULY DATES <? d) && (d <? NEXT_END_AUGUST DATES))
  then Raise (ValidationError [NonInstructionalPeriod])
  else Ok d.

End Configured.

Definition validate_exist_week (db : DB) (d : Datetime.date) : result Datetime.date :=
  let obj := find (fun w => (week_start w <=? d) && (week_end w >=? d)) (weeks db) in
  match obj with
  | None => Raise (ValidationError [NotExistWeek])
  | Some _ => Ok d
  end.

End Validators.

(** ** [views.py]: the object of an update or a delete *)

(** The decimal digits beyond ASCII (the characters of category Nd) in the
    Unicode database of the interpreter: [wide_decimal l] reads one of them,
    in UTF-8, at the head of [l] and gives its value and what follows it. *)
Class UnicodeDigits : Type :=
  { wide_decimal : list ascii -> option (Z * list ascii) }.

(** [datetime.datetime.strptime(s, '%Y-%m-%d').date()], on the UTF-8 bytes
    of [s].  The format compiles to the pattern
    [(\d\d\d\d)-(1[0-2]|0[1-9]|[1-9])-(3[0-1]|[1-2]\d|0[1-9]|[1-9]| [1-9])];
    the string must match it to its end, and the three numbers must form a
    date.  A class such as [[1-9]] holds ASCII digits only; [\d] matches
    every decimal digit, and the number is read with the values of the
    digits. *)
Module Strptime.
Section Parser.
Context `{UnicodeDigits}.

Definition group : Type := list ascii -> option (Z * list ascii).

Definition digit (c : ascii) : option Z :=
  let n := Z.of_nat (nat_of_ascii c) in
  if (48 <=? n) && (n <=? 57) then Some (n - 48) else None.

(** One ASCII digit of the class [p]. *)
Definition one (p : Z -> bool) : group := fun l =>
  match l with
  | c :: rest =>
      match digit c with
      | Some a => if p a then Some (a, rest) else None
      | None => None
      end
  | [] => None
  end.

(** [\d]: an ASCII digit, or a decimal digit beyond ASCII. *)
Definition decimal : group := fun l =>
  match l with
  | c :: rest =>
      match digit c with
      | Some a => Some (a, rest)
      | None =>
          if Z.of_nat (nat_of_ascii c) <? 128 then None else wide_decimal l
      end
  | [] => None
  end.

(** Two digits in a row, read as a number. *)
Definition pair (g1 g2 : group) : group := fun l =>
  match g1 l with
  | Some (a, l1) =>
      match g2 l1 with
      | Some (b, l2) => Some (10 * a + b, l2)
      | None => None
      end
  | None => None
  end.

Definition two (p1 p2 : Z -> bool) : group := pair (one p1) (one p2).

Definition lit (c : ascii) (l : list ascii) : option (list ascii) :=
  match l with
  | x :: rest => if Ascii.eqb x c then Some rest else None
  | [] => None
  end.

(** [g] followed by the literal [c] *)
Definition then_lit (g : group) (c : ascii) : group := fun l =>
  match g l with
  | Some (v, l1) =>
      match lit c l1 with
      | Some l2 => Some (v, l2)
      | None => None
      end
  | None => None
  end.

(** The first alternative that matches. *)
Fixpoint first_of (alts : list group) : group := fun l =>
  match alts with
  | [] => None
  | g :: alts' =>
      match g l with
      | Some r => Some r
      | None => first_of alts' l
      end
  end.

Definition between (a b n : Z) : bool := (a <=? n) && (n <=? b).

(** [\d\d\d\d] *)
Definition year_group : group := fun l =>
  match pair decimal decimal l with
  | Some (hi, l1) =>
      match pair decimal decimal l1 with
      | Some (lo, l2) => Some (100 * hi + lo, l2)
      | None => None
      end
  | None => None
  end.

(** [1[0-2]|0[1-9]|[1-9]] *)
Definition month_alternatives : list group :=
  [ two (between 1 1) (between 0 2);
    two (between 0 0) (between 1 9);
    one (between 1 9) ].

(** [3[0-1]|[1-2]\d|0[1-9]|[1-9]| [1-9]] *)
Definition day_alternatives : list group :=
  [ two (between 3 3) (between 0 1);
    pair (one (between 1 2)) decimal;
    two (between 0 0) (between 1 9);
    one (between 1 9);
    (fun l => match lit " " l with
              | Some l1 => one (between 1 9) l1
              | None => None
              end) ].

Definition dash : ascii := "-".

Definition strptime_date (date_str : string) : result Datetime.date :=
  match then_lit year_group dash (list_ascii_of_string date_str) with
  | Some (y, l1) =>
      match first_of (map (fun g => then_lit g dash) month_alternatives) l1 with
      | Some (m, l2) =>
          match first_of day_alternatives l2 with
          | Some (d, []) => Datetime.mk_date y m d
          | _ => Raise ValueError
          end
      | None => Raise ValueError
      end
  | None => Raise ValueError
  end.

End Parser.
End Strptime.

Module Shortcuts.

(** [get_object_or_404(Schedule, date=d, author=user)] *)
Definition get_object_or_404 (db : DB) (d : Datetime.date) (user : Z)
  : result Schedule :=
  match filter (fun x => (date x =? d) && (author x =? user)) (schedules db) with
  | [] => Raise Http404
  | [obj] => Ok obj
  | _ => Raise MultipleObjectsReturned
  end.

End Shortcuts.

Module ScheduleChangeMixin.
Section View.
Context `{UnicodeDigits}.

(** [self.user] is the key of the requesting user, [date_str] the value of
    the [date] segment of the path. *)
Definition get_object (db : DB) (user : Z) (date_str : string) : result Schedule :=
  d <- Strptime.strptime_date date_str ;;
  obj <- Shortcuts.get_object_or_404 db d user ;;
  Ok obj.

End View.
End ScheduleChangeMixin.

(** ** [views.py]: the lists of the day-list and profile pages *)

(** The day of the week that the lookup [date__week_day] compares:
    1 for a Sunday up to 7 for a Saturday. *)
Definition week_day (d : Datetime.date) : Z := (Datetime.weekday d + 1) mod 7 + 1.

(** [settings.CURRENT_DAY] and [settings.NEXT_DAY] *)
Class DaySettings : Type :=
  { CURRENT_DAY : Datetime.date;
    NEXT_DAY : Datetime.date }.

Module DayListView.

(** [self.user] is the key of the requesting user and [self_week] the row
    that [dispatch] found. *)
Definition get_queryset (db : DB) (user : Z) (self_week : Week)
  : result (list (Datetime.date * option Schedule)) :=
  map_each (range 0 7) (fun number =>
    delta <- Datetime.timedelta number ;;
    d <- Datetime.add (week_start self_week) delta ;;
    let schedule :=
      find (fun x => (week_day (date x) =? Datetime.weekday d + 2)
                     && (author x =? user)
                     && week_is (week x) (Some self_week))
           (schedules db) in
    let date_schedule_tuple := (d, schedule) in
    Ok date_schedule_tuple).

End DayListView.

Module ProfileView.
Section Configured.
Context `{DaySettings}.

Definition today : string := "Сегодня".
Definition tomorrow : string := "Завтра".

(** [user] is the key of [self.user], the row that the first statement
    finds for the requesting user. *)
Definition get_queryset (db : DB) (user : Z)
  : list (option Schedule * Datetime.date * string) :=
  map (fun day_title =>
         let day := fst day_title in
         let title := snd day_title in
         let week_obj :=
           find (fun w => (week_start w <=? day) && (week_end w >=? day)) (weeks db) in
         let schedule :=
           find (fun x => (week_day (date x) =? Datetime.weekday day + 2)
                          && (author x =? user)
                          && week_is (week x) week_obj)
                (schedules db) in
         (schedule, day, title))
      [ (CURRENT_DAY, today); (NEXT_DAY, tomorrow) ].

End Configured.
End ProfileView.

(** ** The notions the properties are stated with *)

(** [w] is a row of the [Week] table whose inclusive interval holds [d]. *)
Definition encloses (db : DB) (w : Week) (d : Datetime.date) : Prop :=
  In w (weeks db) /\ week_start w <= d <= week_end w.

(** The target dates of a schedule, following the specification: the base
    date, and [date + 7 * repetition_rate * k] for [k = 1 .. repetition_count]
    when both repetition fields are present. *)
Definition spec_target_dates (self : Schedule) : list Datetime.date :=
  date self ::
  match repetition_rate self, repetition_count self with
  | Some rate, Some count =>
      map (fun k => date self + 7 * rate * k) (range 1 (count + 1))
  | _, _ => []
  end.

(** A field is present when it holds a value, whatever the value. *)
Definition present (v : option Z) : Prop := v <> None.

Definition exactly_one_present (self : Schedule) : Prop :=
  (present (repetition_rate self) /\ ~ present (repetition_count self))
  \/ (~ present (repetition_rate self) /\ present (repetition_count self)).

Definition exactly_one_truthy (self : Schedule) : Prop :=
  (truthy (repetition_rate self) = true /\ truthy (repetition_count self) = false)
  \/ (truthy (repetition_rate self) = false /\ truthy (repetition_count self) = true).

(** The collision rule of the specification: a resolved target week holds
    a schedule of the same author, on the same weekday, whose primary key
    is not the one of the candidate. *)
Definition spec_collision (db : DB) (self : Schedule) : Prop :=
  exists d w x,
    In d (spec_target_dates self)
    /\ ScheduleMixin.get_related_obj db d = Some w
    /\ In x (schedules db)
    /\ author x = author self
    /\ week_is (week x) (Some w) = true
    /\ Datetime.weekday (date x) = Datetime.weekday (date self)
    /\ pk x <> pk self.

(** The row that the conflict check takes for the current schedule. *)
Definition current_schedule_of (db : DB) (self : Schedule) : option Schedule :=
  find (fun x => (date x =? date self) && (author x =? author self)) (schedules db).

(** No other row of the same author falls on the weekday of [self] in one
    of the week objects [ws]. *)
Definition non_colliding (db : DB) (self : Schedule) (ws : list (option Week)) : Prop :=
  forall x w,
    In x (schedules db) -> In w ws ->
    author x = author self ->
    week_is (week x) w = true ->
    Datetime.weekday (date x) = Datetime.weekday (date self) ->
    pk x = pk self.

(** [self] is the author's only row with its date. *)
Definition sole_record (db : DB) (self : Schedule) : Prop :=
  forall x,
    In x (schedules db) -> date x = date self -> author x = author self ->
    pk x = pk self.

(** Every stored schedule points to the week resolved from its date. *)
Definition week_derived (db : DB) : Prop :=
  forall x, In x (schedules db) ->
    week_is (week x) (ScheduleMixin.get_related_obj db (date x)) = true.

(** Two inclusive intervals share a day. *)
Definition overlap {A : Type} `{IntervalModel A} (a b : A) : Prop :=
  start a <= end_ b /\ start b <= end_ a.

(** Some row has [x] strictly inside its interval. *)
Definition strictly_inside (A : Type) `{IntervalModel A} (db : DB) (x : Datetime.date) : Prop :=
  exists o : A, In o (objects db) /\ start o < x < end_ o.

(** [self] with other values in its two repetition fields. *)
Definition with_repetition (self : Schedule) (rate count : option Z) : Schedule :=
  {| pk := pk self; date := date self; author := author self; week := week self;
     repetition_rate := rate; repetition_count := count |}.

(** [db] restricted to the schedules of one author. *)
Definition schedules_of (db : DB) (user : Z) : DB :=
  {| years := years db; months := months db; weeks := weeks db;
     schedules := filter (fun x => author x =? user) (schedules db) |}.

(** Every stored schedule is dated within the week it points to. *)
Definition dated_within_weeks (db : DB) : Prop :=
  forall x w, In x (schedules db) -> In w (weeks db) ->
    week_is (week x) (Some w) = true ->
    week_start w <= date x <= week_end w.

(** No two stored schedules share a primary key. *)
Definition unique_keys (db : DB) : Prop := NoDup (map pk (schedules db)).

(** An author has at most one stored schedule on a date. *)
Definition unique_date_author (db : DB) : Prop :=
  forall x y, In x (schedules db) -> In y (schedules db) ->
    date x = date y -> author x = author y -> pk x = pk y.

(** The rows that take part in the conflict check of [self]: those of its
    author that fall on its weekday. *)
Definition same_author_and_weekday (db : DB) (self : Schedule) : DB :=
  {| years := years db; months := months db; weeks := weeks db;
     schedules :=
       filter (fun x => (author x =? author self)
                        && (Datetime.weekday (date x) =? Datetime.weekday (date self)))
              (schedules db) |}.

(** ** Sample data *)

Definition d2024_01_01 : Datetime.date := 738886.

(** A database with the fullwidth digits, U+FF10 to U+FF19, whose UTF-8
    bytes are 239, 188 and 144 to 153. *)
#[export] Instance fullwidth_digits : UnicodeDigits :=
  { wide_decimal := fun l =>
      match l with
      | a :: b :: c :: rest =>
          let n := Z.of_nat (nat_of_ascii c) in
          if (Z.of_nat (nat_of_ascii a) =? 239) && (Z.of_nat (nat_of_ascii b) =? 188)
             && (144 <=? n) && (n <=? 153)
          then Some (n - 144, rest)
          else None
      | _ => None
      end }.

#[export] Instance sample_meta : Meta :=
  { year_verbose_name_title := "Year";
    month_verbose_name_title := "Month";
    month_start_verbose_name := "month start";
    month_end_verbose_name := "month end";
    week_start_verbose_name := "week start";
    week_end_verbose_name := "week end" }.

Definition mk_week (key : Z) (s : Datetime.date) : Week :=
  {| week_pk := Some key; week_start := s; week_end := s + 6; week_month := Some 1 |}.

(** The weeks of 1, 8 and 15 January 2024 *)
Definition W1 : Week := mk_week 1 d2024_01_01.
Definition W2 : Week := mk_week 2 (d2024_01_01 + 7).
Definition W3 : Week := mk_week 3 (d2024_01_01 + 14).

Definition january : Month :=
  {| month_pk := Some 1; month_start := d2024_01_01;
     month_end := d2024_01_01 + 27; month_year := Some 1 |}.

Definition monday_of_A : Schedule :=
  {| pk := Some 1; date := d2024_01_01; author := 1; week := Some 1;
     repetition_rate := None; repetition_count := None |}.

(** The same Monday for another author, and the Tuesday of the first one. *)
Definition monday_of_B : Schedule :=
  {| pk := Some 2; date := d2024_01_01; author := 2; week := Some 1;
     repetition_rate := None; repetition_count := None |}.
Definition tuesday_of_A : Schedule :=
  {| pk := Some 3; date := d2024_01_01 + 1; author := 1; week := Some 1;
     repetition_rate := None; repetition_count := None |}.

Definition sample_db : DB :=
  {| years := [ {| year_pk := Some 1; year_year := 2024 |} ];
     months := [ january ];
     weeks := [ W1; W2; W3 ];
     schedules := [ monday_of_A; monday_of_B; tuesday_of_A ] |}.

(** A second schedule of the same author on the same Monday, not yet saved. *)
Definition second_monday_of_A : Schedule :=
  {| pk := None; date := d2024_01_01; author := 1; week := None;
     repetition_rate := None; repetition_count := None |}.

(** A schedule whose rate is 0 and whose count is absent. *)
Definition rate_zero_only : Schedule :=
  {| pk := None; date := d2024_01_01; author := 1; week := None;
     repetition_rate := Some 0; repetition_count := None |}.

(** A schedule of 1 January 2024 repeated on the two following weeks. *)
Definition repeated_twice : Schedule :=
  {| pk := None; date := d2024_01_01; author := 2; week := None;
     repetition_rate := Some 1; repetition_count := Some 2 |}.

(** A month of 28 days from 8 January 2024, and a new month of 35 days
    from 1 January 2024 that ends on the same day. *)
Definition short_month : Month :=
  {| month_pk := Some 1; month_start := d2024_01_01 + 7;
     month_end := d2024_01_01 + 34; month_year := Some 1 |}.
Definition long_month : Month :=
  {| month_pk := None; month_start := d2024_01_01;
     month_end := d2024_01_01 + 34; month_year := None |}.
(** A new week that starts on the last day of [W1]. *)
Definition late_week : Week :=
  {| week_pk := None; week_start := d2024_01_01 + 6;
     week_end := d2024_01_01 + 12; week_month := None |}.

(** A Monday schedule of a third author in the week of 1 January 2024. *)
Definition monday_of_C : Schedule :=
  {| pk := None; date := d2024_01_01; author := 3; week := None;
     repetition_rate := None; repetition_count := None |}.

(** A schedule of author 1 on Monday 25 December 2023, repeated once a week
    later, on the Monday on which the author has a schedule. *)
Definition repeated_onto_monday_of_A : Schedule :=
  {| pk := None; date := d2024_01_01 - 7; author := 1; week := None;
     repetition_rate := Some 1; repetition_count := Some 1 |}.

(** A schedule of 1 January 2024 repeated once, 500000 weeks later. *)
Definition repeated_too_far : Schedule :=
  {| pk := None; date := d2024_01_01; author := 2; week := None;
     repetition_rate := Some 500000; repetition_count := Some 1 |}.

(** A schedule on the last date, repeated a week later. *)
Definition repeated_past_the_end : Schedule :=
  {| pk := None; date := Datetime.MAXORDINAL; author := 1; week := None;
     repetition_rate := Some 1; repetition_count := Some 1 |}.

Definition overlap_db : DB :=
  {| years := []; months := [ short_month ]; weeks := [ W1 ]; schedules := [] |}.

#[export] Instance sample_settings : Settings :=
  { CURRENT_MONTH := 9;
    CURRENT_YEAR := 2023;
    DATES :=
      {| CURRENT_JULY := 739067; CURRENT_AUGUST := 739130;
         NEXT_JULY := 739432; NEXT_AUGUST := 739495;
         CURRENT_START_JULY := 739067; CURRENT_END_AUGUST := 739130;
         NEXT_START_JULY := 739432; NEXT_END_AUGUST := 739495 |} }.

(** A stored month from 1 to 31 January 2024 and a new one from
    15 January to 15 February 2024. *)
Definition stored_january : Month :=
  {| month_pk := Some 1; month_start := d2024_01_01;
     month_end := d2024_01_01 + 30; month_year := Some 1 |}.
Definition new_mid_january : Month :=
  {| month_pk := None; month_start := d2024_01_01 + 14;
     month_end := d2024_01_01 + 45; month_year := None |}.
Definition january_db : DB :=
  {| years := []; months := [ stored_january ]; weeks := []; schedules := [] |}.

(** The stored week of 8 January 2024 alone in its table, and the same
    record moved one day later. *)
Definition moved_W2 : Week :=
  {| week_pk := Some 2; week_start := d2024_01_01 + 8;
     week_end := d2024_01_01 + 14; week_month := Some 1 |}.
Definition only_W2_db : DB :=
  {| years := []; months := []; weeks := [ W2 ]; schedules := [] |}.

(** The sample store after a second Monday schedule of author 1 was saved. *)
Definition saved_second_monday_of_A : Schedule :=
  {| pk := Some 4; date := d2024_01_01; author := 1; week := Some 1;
     repetition_rate := None; repetition_count := None |}.
Definition duplicate_db : DB :=
  {| years := years sample_db; months := months sample_db; weeks := weeks sample_db;
     schedules := schedules sample_db ++ [ saved_second_monday_of_A ] |}.

(** Today is Monday 1 January 2024. *)
#[export] Instance sample_days : DaySettings :=
  { CURRENT_DAY := d2024_01_01; NEXT_DAY := d2024_01_01 + 1 }.

(** ** Sample runs *)

Example strptime_sample :
  Strptime.strptime_date "2024-01-01" = Ok d2024_01_01
  /\ Strptime.strptime_date "2024-1-1" = Ok d2024_01_01
  /\ Strptime.strptime_date "２０２４-01-1１" = Ok (d2024_01_01 + 10)
  /\ Strptime.strptime_date "2024-０1-01" = Raise ValueError
  /\ Strptime.strptime_date "2024-01-32" = Raise ValueError
  /\ Strptime.strptime_date "2023-02-29" = Raise ValueError
  /\ Strptime.strptime_date "9999-12-31" = Ok Datetime.MAXORDINAL
  /\ Strptime.strptime_date "2024-06-30" = Ok 739067
  /\ Strptime.strptime_date "2024-09-01" = Ok 739130
  /\ Strptime.strptime_date "2025-06-30" = Ok 739432
  /\ Strptime.strptime_date "2025-09-01" = Ok 739495
  /\ Datetime.weekday d2024_01_01 = 0
  /\ Datetime.year d2024_01_01 = 2024
  /\ Datetime.year (d2024_01_01 - 1) = 2023
  /\ Datetime.year Datetime.MAXORDINAL = 9999
  /\ Datetime.year 1 = 1.
Proof. vm_compute. repeat split; reflexivity. Qed.

Example conflict_check_sample :
  ScheduleMixin.validate_exist_schedule sample_db monday_of_C = Ok tt
  /\ ScheduleMixin.validate_exist_schedule sample_db repeated_onto_monday_of_A
     = Raise (ValidationError [ScheduleCollision])
  /\ ScheduleMixin.get_related_week_objects sample_db repeated_past_the_end
     = Raise OverflowError
  /\ ScheduleMixin.validate_exist_weeks sample_db repeated_past_the_end
     = Raise OverflowError.
Proof. repeat split; reflexivity. Qed.

(** ** Dates *)

Lemma year_of_day_in_year (y doy : Z) :
  1 <= y -> 1 <= doy <= (if Datetime.is_leap y then 366 else 365) ->
  Datetime.year (Datetime.days_before_year y + doy) = y.
Proof.
  intros Hy Hdoy.
  unfold Datetime.year, Datetime.days_before_year, Datetime.is_leap,
    Datetime.DI400Y, Datetime.DI100Y, Datetime.DI4Y in *.
  cbv zeta.
  destruct (y mod 4 =? 0) eqn:E4; destruct (y mod 100 =? 0) eqn:E100;
    destruct (y mod 400 =? 0) eqn:E400; simpl in Hdoy;
    match goal with |- (if ?c then _ else _) = _ => destruct c eqn:Ec end;
    Z.div_mod_to_equations; lia.
Qed.

(** Evaluates the lookups in the tables of the months, and nothing else. *)
Ltac table_lookup :=
  cbv [nth Z.to_nat Pos.to_nat Pos.iter_op Nat.add Init.Nat.add
       Datetime.DAYS_BEFORE_MONTH Datetime.DAYS_IN_MONTH
       Z.eqb Z.ltb Z.compare Pos.compare Pos.compare_cont andb Pos.eqb] in *.

Lemma day_of_year_bounds (y m d : Z) :
  1 <= m <= 12 -> 1 <= d <= Datetime.days_in_month y m ->
  1 <= Datetime.days_before_month y m + d
    <= (if Datetime.is_leap y then 366 else 365).
Proof.
  intros Hm Hd.
  unfold Datetime.days_before_month, Datetime.days_in_month in *.
  assert (Hc : m = 1 \/ m = 2 \/ m = 3 \/ m = 4 \/ m = 5 \/ m = 6 \/ m = 7
               \/ m = 8 \/ m = 9 \/ m = 10 \/ m = 11 \/ m = 12) by lia.
  destruct (Datetime.is_leap y);
    repeat (destruct Hc as [Hc|Hc]; [subst m; table_lookup; lia|]);
    subst m; table_lookup; lia.
Qed.

(** [year] is the year from which the date was built. *)
Lemma year_of_mk_date (y m d : Z) (o : Datetime.date) :
  Datetime.mk_date y m d = Ok o -> Datetime.year o = y /\ Datetime.valid_date o.
Proof.
  unfold Datetime.mk_date, Datetime.MINYEAR, Datetime.MAXYEAR.
  destruct ((1 <=? y) && (y <=? 9999) && (1 <=? m) && (m <=? 12)
            && (1 <=? d) && (d <=? Datetime.days_in_month y m)) eqn:E;
    [|discriminate].
  intros [= <-].
  assert (Hy : 1 <= y <= 9999) by lia.
  assert (Hdoy : 1 <= Datetime.days_before_month y m + d
                 <= (if Datetime.is_leap y then 366 else 365))
    by (apply day_of_year_bounds; lia).
  clear E. unfold Datetime.ymd2ord. rewrite <- Z.add_assoc.
  split; [apply year_of_day_in_year; lia|].
  generalize dependent (Datetime.days_before_month y m + d). intros doy Hdoy.
  unfold Datetime.valid_date, Datetime.MAXORDINAL, Datetime.days_before_year.
  cbv zeta. destruct (Datetime.is_leap y) eqn:El.
  - unfold Datetime.is_leap in El.
    apply andb_true_iff in El. destruct El as [E4 _].
    apply Z.eqb_eq in E4. Z.div_mod_to_equations. lia.
  - Z.div_mod_to_equations. lia.
Qed.

(** ** Loops, queries and ranges *)

Lemma for_each_Ok {A : Type} (l : list A) (body : A -> result unit) :
  for_each l body = Ok tt <-> forall x, In x l -> body x = Ok tt.
Proof.
  induction l as [|a l IH]; simpl.
  - split; [intros _ x []|reflexivity].
  - destruct (body a) as [[]|e] eqn:Ea; simpl.
    + rewrite IH. split.
      * intros Hl x [<-|Hx]; auto.
      * intros Hall x Hx. apply Hall. now right.
    + split; [discriminate|].
      intros Hall. rewrite (Hall a) in Ea by now left. discriminate.
Qed.

Lemma for_each_Raise {A : Type} (l : list A) (body : A -> result unit) (e : exn) :
  for_each l body = Raise e -> exists x, In x l /\ body x = Raise e.
Proof.
  induction l as [|a l IH]; simpl; [discriminate|].
  destruct (body a) as [[]|e'] eqn:Ea; simpl.
  - intros Hl. destruct (IH Hl) as [x [Hx Hb]]. exists x. auto.
  - intros [= <-]. exists a. auto.
Qed.

Lemma map_each_pure {A B : Type} (l : list A) (f : A -> result B) (g : A -> B) :
  (forall x, In x l -> f x = Ok (g x)) -> map_each l f = Ok (map g l).
Proof.
  induction l as [|a l IH]; simpl; intros Hall; [reflexivity|].
  rewrite (Hall a) by now left. simpl.
  rewrite IH by (intros x Hx; apply Hall; now right).
  reflexivity.
Qed.

Lemma in_range (a b k : Z) : In k (range a b) <-> a <= k < b.
Proof.
  unfold range. rewrite in_map_iff. split.
  - intros [i [<- Hi]]. apply in_seq in Hi. lia.
  - intros Hk. exists (Z.to_nat (k - a)). split; [lia|].
    apply in_seq. lia.
Qed.

Lemma find_None_iff {A : Type} (p : A -> bool) (l : list A) :
  find p l = None <-> forall x, In x l -> p x = false.
Proof.
  split; [apply find_none|].
  induction l as [|a l IH]; simpl; intros Hall; [reflexivity|].
  rewrite (Hall a) by now left. apply IH. intros x Hx. apply Hall. now right.
Qed.

Lemma find_is_some {A : Type} (p : A -> bool) (l : list A) :
  is_some (find p l) = true <-> exists x, In x l /\ p x = true.
Proof.
  destruct (find p l) as [x|] eqn:E; simpl.
  - apply find_some in E. split; [eauto|reflexivity].
  - split; [discriminate|]. intros [x [Hx Hp]].
    rewrite (find_none _ _ E x Hx) in Hp. discriminate.
Qed.

Lemma get_related_obj_Some (db : DB) (d : Datetime.date) (w : Week) :
  ScheduleMixin.get_related_obj db d = Some w -> encloses db w d.
Proof.
  unfold ScheduleMixin.get_related_obj, encloses. intros E.
  apply find_some in E. destruct E as [Hin Hb]. split; [assumption|lia].
Qed.

Lemma get_related_obj_None (db : DB) (d : Datetime.date) :
  ScheduleMixin.get_related_obj db d = None <-> forall w, ~ encloses db w d.
Proof.
  unfold ScheduleMixin.get_related_obj, encloses. rewrite find_None_iff. split.
  - intros Hall w [Hin Hb]. specialize (Hall w Hin). lia.
  - intros Hno w Hin.
    destruct ((week_start w <=? d) && (week_end w >=? d)) eqn:E; [|reflexivity].
    exfalso. apply (Hno w). split; [assumption|lia].
Qed.

(** ** Month length *)

(** C8.  The length check of a Month succeeds exactly when the inclusive day
    count [(end - start).days + 1] is a multiple of 7 whose quotient is 4 or
    5, that is 28 or 35 days; every other length is refused with one of the
    two wrong-month-length messages, and 30 days is refused. *)
Theorem month_len_interval_28_or_35 (M : Meta) (m : Month) :
  let n := month_end m - month_start m + 1 in
  TrueDiffInterval.get_true_diff m = n
  /\ (MonthMixin.validate_len_interval m = Ok tt
      <-> n mod 7 = 0 /\ (n / 7 = 4 \/ n / 7 = 5))
  /\ (n mod 7 = 0 /\ (n / 7 = 4 \/ n / 7 = 5) <-> n = 28 \/ n = 35)
  /\ (MonthMixin.validate_len_interval m = Ok tt
      \/ MonthMixin.validate_len_interval m = Raise (ValidationError [WrongMonthLength_weeks])
      \/ MonthMixin.validate_len_interval m = Raise (ValidationError [WrongMonthLength_count]))
  /\ (n = 30 ->
      MonthMixin.validate_len_interval m = Raise (ValidationError [WrongMonthLength_weeks])).
Proof.
  intros n.
  assert (Hn : TrueDiffInterval.get_true_diff m = n) by reflexivity.
  unfold MonthMixin.validate_len_interval. rewrite Hn.
  clearbody n. clear Hn.
  assert (Hdm : n = 7 * (n / 7) + n mod 7) by (apply Z.div_mod; lia).
  assert (Hm : 0 <= n mod 7 < 7) by (apply Z.mod_pos_bound; lia).
  split; [reflexivity|].
  split; [|split; [|split]].
  - destruct (n mod 7 =? 0) eqn:E1; simpl.
    + destruct ((n / 7 <? 4) || (n / 7 >? 5)) eqn:E2.
      * split; [discriminate|lia].
      * split; [lia|reflexivity].
    + split; [discriminate|lia].
  - split; [lia|].
    intros [Hv|Hv]; rewrite Hv; vm_compute; auto.
  - destruct (n mod 7 =? 0); simpl; [|auto].
    destruct ((n / 7 <? 4) || (n / 7 >? 5)); auto.
  - intros Hv. rewrite Hv. reflexivity.
Qed.

(** ** The start-date validator *)

(** C9.  With [first] the first day of the configured current month and
    year, [correct_start] refuses every date before [first] as a past date
    (this test comes first), refuses every other date strictly between
    CURRENT_JULY and CURRENT_AUGUST or strictly between NEXT_JULY and
    NEXT_AUGUST as non-instructional, and returns every remaining date
    unchanged. *)
Theorem correct_start_cases (S : Settings) (first d : Datetime.date) :
  Datetime.mk_date CURRENT_YEAR CURRENT_MONTH 1 = Ok first ->
  (d < first ->
     Validators.correct_start d = Raise (ValidationError [PastDateRejected]))
  /\ (first <= d ->
      (CURRENT_JULY DATES < d < CURRENT_AUGUST DATES
       \/ NEXT_JULY DATES < d < NEXT_AUGUST DATES) ->
      Validators.correct_start d = Raise (ValidationError [NonInstructionalPeriod]))
  /\ (first <= d ->
      ~ (CURRENT_JULY DATES < d < CURRENT_AUGUST DATES
         \/ NEXT_JULY DATES < d < NEXT_AUGUST DATES) ->
      Validators.correct_start d = Ok d).
Proof.
  intros Hfirst. unfold Validators.correct_start. rewrite Hfirst. simpl.
  repeat split.
  - intros Hlt. destruct (d <? first) eqn:E; [reflexivity|lia].
  - intros Hge Hwin. destruct (d <? first) eqn:E; [lia|].
    destruct ((CURRENT_JULY DATES <? d) && (d <? CURRENT_AUGUST DATES)
              || (NEXT_JULY DATES <? d) && (d <? NEXT_AUGUST DATES)) eqn:E2;
      [reflexivity|lia].
  - intros Hge Hwin. destruct (d <? first) eqn:E; [lia|].
    destruct ((CURRENT_JULY DATES <? d) && (d <? CURRENT_AUGUST DATES)
              || (NEXT_JULY DATES <? d) && (d <? NEXT_AUGUST DATES)) eqn:E2;
      [exfalso; apply Hwin; lia|reflexivity].
Qed.

(** A run of C9 under the sample settings, on 15 July 2024. *)
Lemma correct_start_cases_witness :
  Datetime.mk_date (@CURRENT_YEAR sample_settings) (@CURRENT_MONTH sample_settings) 1
    = Ok 738764
  /\ Validators.correct_start 739082 = Raise (ValidationError [NonInstructionalPeriod]).
Proof.
  split; [reflexivity|].
  apply (correct_start_cases sample_settings 738764 739082); [reflexivity|lia|].
  left. simpl. lia.
Defined.

(** ** Repetition fields *)

Lemma validate_empty_repetition_unfold (self : Schedule) :
  ScheduleMixin.validate_empty_repetition self =
  if (truthy (repetition_rate self) || truthy (repetition_count self))
     && negb (truthy (repetition_rate self) && truthy (repetition_count self))
  then Raise (ValidationError [IncompleteRepetition])
  else Ok tt.
Proof.
  unfold ScheduleMixin.validate_empty_repetition. simpl.
  now rewrite !orb_false_r, !andb_true_r.
Qed.

(** C5, as stated, fails: a schedule whose rate is present with value 0 and
    whose count is absent has exactly one repetition field set, and passes
    the completeness check. *)
Lemma repetition_presence_counterexample :
  exactly_one_present rate_zero_only
  /\ ScheduleMixin.validate_empty_repetition rate_zero_only = Ok tt.
Proof.
  split; [|reflexivity].
  left. split; [discriminate|]. intros Hp. now apply Hp.
Qed.

(** C5, amended.  The completeness check fails with IncompleteRepetition if
    and only if exactly one of the two repetition fields is truthy, that is
    present and not 0; otherwise it returns.  In particular a non-zero rate
    without a count, or a non-zero count without a rate, is rejected. *)
Theorem repetition_exactly_one_truthy (self : Schedule) :
  (ScheduleMixin.validate_empty_repetition self
     = Raise (ValidationError [IncompleteRepetition])
   <-> exactly_one_truthy self)
  /\ (ScheduleMixin.validate_empty_repetition self = Ok tt
      <-> ~ exactly_one_truthy self)
  /\ (forall n, n <> 0 ->
        ScheduleMixin.validate_empty_repetition (with_repetition self (Some n) None)
          = Raise (ValidationError [IncompleteRepetition])
        /\ ScheduleMixin.validate_empty_repetition (with_repetition self None (Some n))
          = Raise (ValidationError [IncompleteRepetition])).
Proof.
  rewrite validate_empty_repetition_unfold. unfold exactly_one_truthy.
  split; [|split].
  - destruct (truthy (repetition_rate self)), (truthy (repetition_count self));
      simpl; split; intros Hx; try discriminate; try reflexivity;
      try (destruct Hx as [[? ?]|[? ?]]; discriminate); auto.
  - destruct (truthy (repetition_rate self)), (truthy (repetition_count self));
      simpl; split; intros Hx; try discriminate; try reflexivity;
      try (intros [[? ?]|[? ?]]; discriminate);
      exfalso; apply Hx; auto.
  - intros n Hn. rewrite !validate_empty_repetition_unfold. simpl.
    destruct (n =? 0) eqn:E; [lia|]. split; reflexivity.
Qed.

Lemma no_expansion_when_falsy (db : DB) (self : Schedule) :
  truthy (repetition_rate self) && truthy (repetition_count self) = false ->
  ScheduleMixin.get_related_week_objects db self
    = Ok [ScheduleMixin.get_related_obj db (date self)].
Proof.
  intros Hf. unfold ScheduleMixin.get_related_week_objects. rewrite Hf. reflexivity.
Qed.

(** C10.  Repetition values equal to 0 are treated as absent, because both
    checks test the truth value of a field and not its presence.  A schedule
    with rate 0 and count 0 passes the completeness check, and its week
    resolution performs no expansion and resolves the week of the base date
    only, exactly as with both fields absent.  Whatever the other field
    holds, a field that is 0 gives the completeness check the result it has
    with that field absent, and week resolution resolves the base week
    only; so a rate of 0 beside a non-zero count, or a count of 0 beside a
    non-zero rate, is refused as incomplete, and a lone 0 passes. *)
Theorem zero_repetition_is_absent (db : DB) (self : Schedule) :
  let zero := with_repetition self (Some 0) (Some 0) in
  let absent := with_repetition self None None in
  ScheduleMixin.validate_empty_repetition zero = Ok tt
  /\ ScheduleMixin.validate_empty_repetition absent = Ok tt
  /\ ScheduleMixin.get_related_week_objects db zero
      = Ok [ScheduleMixin.get_related_obj db (date self)]
  /\ ScheduleMixin.get_related_week_objects db zero
      = ScheduleMixin.get_related_week_objects db absent
  /\ ScheduleMixin.validate_exist_weeks db zero
      = ScheduleMixin.validate_exist_weeks db absent
  /\ (forall v,
        ScheduleMixin.validate_empty_repetition (with_repetition self (Some 0) v)
        = ScheduleMixin.validate_empty_repetition (with_repetition self None v)
        /\ ScheduleMixin.validate_empty_repetition (with_repetition self v (Some 0))
           = ScheduleMixin.validate_empty_repetition (with_repetition self v None)
        /\ ScheduleMixin.get_related_week_objects db (with_repetition self (Some 0) v)
           = Ok [ScheduleMixin.get_related_obj db (date self)]
        /\ ScheduleMixin.get_related_week_objects db (with_repetition self v (Some 0))
           = Ok [ScheduleMixin.get_related_obj db (date self)])
  /\ (forall n, n <> 0 ->
        ScheduleMixin.validate_empty_repetition (with_repetition self (Some 0) (Some n))
        = Raise (ValidationError [IncompleteRepetition])
        /\ ScheduleMixin.validate_empty_repetition (with_repetition self (Some n) (Some 0))
           = Raise (ValidationError [IncompleteRepetition]))
  /\ ScheduleMixin.validate_empty_repetition (with_repetition self (Some 0) None) = Ok tt
  /\ ScheduleMixin.validate_empty_repetition (with_repetition self None (Some 0)) = Ok tt.
Proof.
  intros zero absent.
  assert (Hz : ScheduleMixin.get_related_week_objects db zero
               = Ok [ScheduleMixin.get_related_obj db (date self)])
    by (apply (no_expansion_when_falsy db zero); reflexivity).
  assert (Ha : ScheduleMixin.get_related_week_objects db absent
               = Ok [ScheduleMixin.get_related_obj db (date self)])
    by (apply (no_expansion_when_falsy db absent); reflexivity).
  split; [reflexivity|]. split; [reflexivity|]. split; [exact Hz|].
  split; [now rewrite Hz, Ha|].
  split; [unfold ScheduleMixin.validate_exist_weeks; now rewrite Hz, Ha|].
  split; [|split; [|split; reflexivity]].
  - intros v. rewrite !validate_empty_repetition_unfold.
    split; [reflexivity|]. split; [reflexivity|]. split.
    + apply (no_expansion_when_falsy db (with_repetition self (Some 0) v)). reflexivity.
    + apply (no_expansion_when_falsy db (with_repetition self v (Some 0))).
      simpl. apply andb_false_r.
  - intros n Hn. rewrite !validate_empty_repetition_unfold. simpl.
    destruct (n =? 0) eqn:E; [lia|]. split; reflexivity.
Qed.

(** ** Week resolution *)

Lemma add_timedelta_valid (d delta : Datetime.date) :
  Datetime.valid_date d -> Datetime.valid_date (d + delta) ->
  Datetime.timedelta delta = Ok delta /\ Datetime.add d delta = Ok (d + delta).
Proof.
  unfold Datetime.valid_date, Datetime.timedelta, Datetime.add, Datetime.MAXORDINAL.
  intros Hd Hs.
  destruct (Z.abs delta <=? 999999999) eqn:E1; [|lia].
  destruct ((0 <? d + delta) && (d + delta <=? 3652059)) eqn:E2; [auto|lia].
Qed.

Lemma expansion_when_truthy (db : DB) (self : Schedule) (rate count : Z) :
  repetition_rate self = Some rate -> repetition_count self = Some count ->
  rate <> 0 -> count <> 0 ->
  Forall Datetime.valid_date (spec_target_dates self) ->
  ScheduleMixin.get_related_week_objects db self
    = Ok (map (fun k => ScheduleMixin.get_related_obj db (date self + 7 * rate * k))
              (range 1 (count + 1))
          ++ [ScheduleMixin.get_related_obj db (date self)]).
Proof.
  intros Hr Hc Hr0 Hc0 Hvalid.
  unfold ScheduleMixin.get_related_week_objects. rewrite Hr, Hc. unfold truthy.
  destruct (rate =? 0) eqn:E1; [lia|]. destruct (count =? 0) eqn:E2; [lia|].
  cbn [negb andb].
  rewrite (map_each_pure _ _
             (fun k => ScheduleMixin.get_related_obj db (date self + 7 * rate * k))).
  - reflexivity.
  - intros k Hk. rewrite Forall_forall in Hvalid.
    assert (Hbase : Datetime.valid_date (date self))
      by (apply Hvalid; now left).
    assert (Hrep : Datetime.valid_date (date self + 7 * rate * k)).
    { apply Hvalid. unfold spec_target_dates. rewrite Hr, Hc. right.
      apply in_map_iff. exists k. auto. }
    destruct (add_timedelta_valid _ _ Hbase Hrep) as [Htd Hadd].
    rewrite Htd. cbn [bind]. rewrite Hadd. reflexivity.
Qed.

(** Under valid target dates the week objects are those of the target dates. *)
Lemma week_objects_of_targets (db : DB) (self : Schedule) :
  Forall Datetime.valid_date (spec_target_dates self) ->
  exists ws,
    ScheduleMixin.get_related_week_objects db self = Ok ws
    /\ forall o, In o ws <->
         exists d, In d (spec_target_dates self) /\ o = ScheduleMixin.get_related_obj db d.
Proof.
  intros Hvalid.
  destruct (truthy (repetition_rate self) && truthy (repetition_count self)) eqn:Et.
  - apply andb_true_iff in Et. destruct Et as [Hr Hc].
    destruct (repetition_rate self) as [rate|] eqn:Er; [|discriminate].
    destruct (repetition_count self) as [count|] eqn:Ec; [|discriminate].
    simpl in Hr, Hc. apply negb_true_iff in Hr, Hc.
    eexists. split.
    + apply (expansion_when_truthy db self rate count); auto; lia.
    + intros o. unfold spec_target_dates. rewrite Er, Ec.
      rewrite in_app_iff, in_map_iff. simpl. split.
      * intros [[k [<- Hk]]|[<-|[]]].
        -- exists (date self + 7 * rate * k). split; [|reflexivity].
           right. apply in_map_iff. exists k. auto.
        -- exists (date self). auto.
      * intros [d [[<-|Hd] ->]]; [auto|].
        apply in_map_iff in Hd. destruct Hd as [k [<- Hk]].
        left. exists k. auto.
  - exists [ScheduleMixin.get_related_obj db (date self)].
    split; [now apply no_expansion_when_falsy|].
    intros o. simpl. split.
    + intros [<-|[]]. exists (date self). split; [|reflexivity].
      unfold spec_target_dates. now left.
    + intros [d [Hd ->]]. left. f_equal.
      unfold spec_target_dates in Hd. destruct Hd as [<-|Hd]; [reflexivity|].
      destruct (repetition_rate self) as [rate|]; [|destruct Hd].
      destruct (repetition_count self) as [count|]; [|destruct Hd].
      apply in_map_iff in Hd. destruct Hd as [k [<- Hk]]. apply in_range in Hk.
      simpl in Et. apply andb_false_iff in Et.
      destruct Et as [E|E]; apply negb_false_iff in E; apply Z.eqb_eq in E;
        subst; lia.
Qed.

Lemma validate_exist_weeks_cases (db : DB) (self : Schedule) (ws : list (option Week)) :
  ScheduleMixin.get_related_week_objects db self = Ok ws ->
  (ScheduleMixin.validate_exist_weeks db self = Raise (ValidationError [NoSuchWeek])
   <-> In None ws)
  /\ (ScheduleMixin.validate_exist_weeks db self = Ok tt <-> ~ In None ws).
Proof.
  intros Hws. unfold ScheduleMixin.validate_exist_weeks. rewrite Hws. simpl.
  destruct (existsb (fun o => negb (is_some o)) ws) eqn:E.
  - apply existsb_exists in E. destruct E as [[w|] [Hin Hb]]; [discriminate|].
    split; split; auto; try discriminate. intros Hno. now destruct Hno.
  - assert (Hno : ~ In (@None Week) ws).
    { intros Hin. rewrite <- not_true_iff_false in E. apply E.
      apply existsb_exists. exists None. auto. }
    split; split; auto; try discriminate. intros Hin. now destruct Hno.
Qed.

(** C2, as stated, fails: the schedule of 1 January 2024 with rate 500000
    and count 1 has a target date that no Week encloses, and the existence
    check raises OverflowError, not NoSuchWeek, because that date lies
    beyond the last date. *)
Lemma overflow_not_no_such_week_counterexample :
  (exists d, In d (spec_target_dates repeated_too_far)
             /\ ~ Datetime.valid_date d
             /\ forall w, ~ encloses sample_db w d)
  /\ ScheduleMixin.validate_exist_weeks sample_db repeated_too_far = Raise OverflowError
  /\ ScheduleMixin.validate_exist_weeks sample_db repeated_too_far
     <> Raise (ValidationError [NoSuchWeek]).
Proof.
  split; [|split; [reflexivity|discriminate]].
  exists (d2024_01_01 + 7 * 500000 * 1). split; [right; now left|]. split.
  - vm_compute. intros [_ Hle]. now apply Hle.
  - apply get_related_obj_None. reflexivity.
Qed.

(** C2, amended.  For a schedule whose target dates are all representable
    dates, week resolution
    returns the week objects of exactly the target dates: the base date and,
    when both repetition fields are set, [date + 7 * rate * k] for
    [k = 1 .. count]; a resolved week encloses its date inclusively
    ([start <= d <= end]); without repetition only the week of the base date
    is resolved; and the existence check fails with NoSuchWeek if and only
    if some target date has no enclosing Week, and passes otherwise. *)
Theorem target_weeks_and_existence (db : DB) (self : Schedule) :
  Forall Datetime.valid_date (spec_target_dates self) ->
  exists ws,
    ScheduleMixin.get_related_week_objects db self = Ok ws
    /\ (forall o, In o ws <->
          exists d, In d (spec_target_dates self)
                    /\ o = ScheduleMixin.get_related_obj db d)
    /\ (forall d w, ScheduleMixin.get_related_obj db d = Some w -> encloses db w d)
    /\ (forall d, ScheduleMixin.get_related_obj db d = None <->
                  forall w, ~ encloses db w d)
    /\ (repetition_rate self = None \/ repetition_count self = None ->
        spec_target_dates self = [date self]
        /\ ws = [ScheduleMixin.get_related_obj db (date self)])
    /\ (ScheduleMixin.validate_exist_weeks db self
          = Raise (ValidationError [NoSuchWeek])
        <-> exists d, In d (spec_target_dates self) /\ forall w, ~ encloses db w d)
    /\ (ScheduleMixin.validate_exist_weeks db self = Ok tt
        <-> forall d, In d (spec_target_dates self) -> exists w, encloses db w d).
Proof.
  intros Hvalid.
  destruct (week_objects_of_targets db self Hvalid) as [ws [Hws Hmem]].
  destruct (validate_exist_weeks_cases db self ws Hws) as [Hraise Hok].
  exists ws. split; [exact Hws|]. split; [exact Hmem|].
  split; [apply get_related_obj_Some|]. split; [apply get_related_obj_None|].
  split; [|split].
  - intros Habsent.
    assert (Hf : truthy (repetition_rate self) && truthy (repetition_count self) = false).
    { destruct Habsent as [E|E]; rewrite E; simpl; [reflexivity|apply andb_false_r]. }
    rewrite (no_expansion_when_falsy db self Hf) in Hws. injection Hws as <-.
    split; [|reflexivity].
    unfold spec_target_dates. destruct Habsent as [E|E]; rewrite E; [reflexivity|].
    now destruct (repetition_rate self).
  - rewrite Hraise, Hmem. split.
    + intros [d [Hd Hn]]. exists d. split; [exact Hd|].
      now apply get_related_obj_None.
    + intros [d [Hd Hn]]. exists d. split; [exact Hd|].
      symmetry. now apply get_related_obj_None.
  - rewrite Hok, Hmem. split.
    + intros Hno d Hd.
      destruct (ScheduleMixin.get_related_obj db d) as [w|] eqn:E.
      * exists w. now apply get_related_obj_Some.
      * exfalso. apply Hno. exists d. auto.
    + intros Hall [d [Hd Hn]]. destruct (Hall d Hd) as [w Hw].
      symmetry in Hn. rewrite get_related_obj_None in Hn. now apply (Hn w).
Qed.

(** A run of C2 on the schedule of 1 January 2024 repeated on the two
    following weeks: the weeks of 8, 15 and 1 January are resolved. *)
Lemma target_weeks_and_existence_witness :
  Forall Datetime.valid_date (spec_target_dates repeated_twice)
  /\ spec_target_dates repeated_twice
     = [d2024_01_01; d2024_01_01 + 7; d2024_01_01 + 14]
  /\ ScheduleMixin.get_related_week_objects sample_db repeated_twice
     = Ok [Some W2; Some W3; Some W1]
  /\ ScheduleMixin.validate_exist_weeks sample_db repeated_twice = Ok tt.
Proof.
  assert (Hvalid : Forall Datetime.valid_date (spec_target_dates repeated_twice)).
  { repeat constructor; vm_compute; discriminate. }
  destruct (target_weeks_and_existence sample_db repeated_twice Hvalid)
    as [ws [Hws [_ [_ [_ [_ [_ Hok]]]]]]].
  split; [exact Hvalid|]. split; [reflexivity|]. split; [reflexivity|].
  apply Hok. intros d [<-|[<-|[<-|[]]]]; [exists W1|exists W2|exists W3];
    (split; [simpl; auto|vm_compute; split; discriminate]).
Defined.

(** ** Parents in the hierarchy *)

(** C7.  The Year of a Month is looked up by the calendar year of
    [start + 15 days] (the Month being early enough for that date to exist),
    which is the year of the calendar date that ordinal was built from;
    the Month of a Week by inclusive containment of the start of the Week;
    the validation fails with MissingParent, naming the parent model,
    exactly when no such row exists, and passes otherwise. *)
Theorem parent_lookup (M : Meta) (db : DB) (m : Month) (w : Week) :
  Datetime.valid_date (month_start m + 15) ->
  (MonthMixin.get_average_date m = Ok (month_start m + 15)
   /\ (forall cy cm cd, Datetime.mk_date cy cm cd = Ok (month_start m + 15) ->
         Datetime.year (month_start m + 15) = cy)
   /\ (forall y, MonthMixin.get_related_obj db m = Ok (Some y) ->
         In y (years db) /\ year_year y = Datetime.year (month_start m + 15))
   /\ (MonthMixin.validate_related_obj db m
        = Raise (ValidationError [MissingParent year_verbose_name_title])
       <-> ~ exists y, In y (years db)
                       /\ year_year y = Datetime.year (month_start m + 15))
   /\ (MonthMixin.validate_related_obj db m = Ok tt
       <-> exists y, In y (years db)
                     /\ year_year y = Datetime.year (month_start m + 15)))
  /\ ((forall p, WeekMixin.get_related_obj db w = Some p ->
         In p (months db) /\ month_start p <= week_start w <= month_end p)
      /\ (WeekMixin.validate_related_obj db w
           = Raise (ValidationError [MissingParent month_verbose_name_title])
          <-> ~ exists p, In p (months db)
                          /\ month_start p <= week_start w <= month_end p)
      /\ (WeekMixin.validate_related_obj db w = Ok tt
          <-> exists p, In p (months db)
                        /\ month_start p <= week_start w <= month_end p)).
Proof.
  intros Hvalid.
  assert (Havg : MonthMixin.get_average_date m = Ok (month_start m + 15)).
  { unfold MonthMixin.get_average_date.
    change (Datetime.timedelta 15) with (@Ok Z 15). cbn [bind].
    unfold Datetime.add. unfold Datetime.valid_date in Hvalid.
    destruct ((0 <? month_start m + 15)
              && (month_start m + 15 <=? Datetime.MAXORDINAL)) eqn:E;
      [reflexivity|lia]. }
  split; [split; [exact Havg|split]|].
  - intros cy cm cd Hmk. now apply (year_of_mk_date cy cm cd).
  - unfold MonthMixin.validate_related_obj, MonthMixin.get_related_obj.
    rewrite Havg. cbn [bind].
    set (q := fun y => year_year y =? Datetime.year (month_start m + 15)).
    assert (Hq : is_some (find q (years db)) = true
                 <-> exists y, In y (years db)
                               /\ year_year y = Datetime.year (month_start m + 15)).
    { rewrite find_is_some. unfold q.
      split; intros [y [Hy Hb]]; exists y; (split; [exact Hy|lia]). }
    split; [|split].
    + intros y [= Hf]. apply find_some in Hf. unfold q in Hf.
      destruct Hf as [Hy Hb]. split; [exact Hy|lia].
    + destruct (find q (years db)); simpl in Hq.
      * split; [discriminate|]. intros Hno. exfalso. apply Hno, Hq. reflexivity.
      * split; [|reflexivity]. intros _ Hex. apply Hq in Hex. discriminate.
    + destruct (find q (years db)); simpl in Hq.
      * split; [|reflexivity]. intros _. now apply Hq.
      * split; [discriminate|]. intros Hex. apply Hq in Hex. discriminate.
  - unfold WeekMixin.validate_related_obj, WeekMixin.get_related_obj.
    set (q := fun p => (month_start p <=? week_start w)
                       && (month_end p >=? week_start w)).
    assert (Hq : is_some (find q (months db)) = true
                 <-> exists p, In p (months db)
                               /\ month_start p <= week_start w <= month_end p).
    { rewrite find_is_some. unfold q.
      split; intros [p [Hp Hb]]; exists p; (split; [exact Hp|lia]). }
    split; [|split].
    + intros p Hf. apply find_some in Hf. unfold q in Hf.
      destruct Hf as [Hp Hb]. split; [exact Hp|lia].
    + destruct (find q (months db)); simpl in Hq.
      * split; [discriminate|]. intros Hno. exfalso. apply Hno, Hq. reflexivity.
      * split; [|reflexivity]. intros _ Hex. apply Hq in Hex. discriminate.
    + destruct (find q (months db)); simpl in Hq.
      * split; [|reflexivity]. intros _. now apply Hq.
      * split; [discriminate|]. intros Hex. apply Hq in Hex. discriminate.
Qed.

(** A run of C7: January 2024 finds the year 2024 and the week of 1 January
    finds January 2024. *)
Lemma parent_lookup_witness :
  Datetime.valid_date (month_start january + 15)
  /\ MonthMixin.validate_related_obj sample_db january = Ok tt
  /\ WeekMixin.validate_related_obj sample_db W1 = Ok tt.
Proof.
  assert (Hvalid : Datetime.valid_date (month_start january + 15))
    by (vm_compute; split; discriminate).
  destruct (parent_lookup sample_meta sample_db january W1 Hvalid)
    as [[_ [_ [_ [_ Hmonth]]]] [_ [_ Hweek]]].
  split; [exact Hvalid|]. split.
  - apply Hmonth. exists {| year_pk := Some 1; year_year := 2024 |}.
    split; [simpl; auto|reflexivity].
  - apply Hweek. exists january. split; [simpl; auto|vm_compute].
    split; discriminate.
Defined.

(** ** Overlapping intervals *)

Section ExistInterval.
Context {A : Type} `{IntervalModel A}.

Lemma strictly_inside_find (db : DB) (x : Datetime.date) :
  is_some (find (fun o : A => (start o <? x) && (end_ o >? x)) (objects db)) = true
  <-> strictly_inside A db x.
Proof.
  rewrite find_is_some. unfold strictly_inside.
  split; intros [o [Ho Hb]]; exists o; (split; [exact Ho|lia]).
Qed.

Lemma validate_exist_interval_unfold (db : DB) (self : A) :
  ValidationMonthAndWeekIntervalMixin.validate_exist_interval db self =
  let s := is_some (find (fun o : A => (start o <? start self) && (end_ o >? start self))
                         (objects db)) in
  let e := is_some (find (fun o : A => (start o <? end_ self) && (end_ o >? end_ self))
                         (objects db)) in
  if s || e then
    Raise (ValidationError
             ((if s then [OverlappingInterval start_verbose_name] else [])
              ++ (if e then [OverlappingInterval end_verbose_name] else [])))
  else Ok tt.
Proof.
  unfold ValidationMonthAndWeekIntervalMixin.validate_exist_interval.
  destruct (find (fun o : A => (start o <? start self) && (end_ o >? start self))
                 (objects db));
    destruct (find (fun o : A => (start o <? end_ self) && (end_ o >? end_ self))
                   (objects db));
    reflexivity.
Qed.

End ExistInterval.

(** C3, as stated, fails.  A new Month of 35 days that encloses a stored
    Month of 28 days ending on the same day overlaps it, has a valid
    length, and passes the interval validation; so does a new Week of 7
    days that starts on the last day of a stored Week. *)
Lemma overlap_not_rejected_counterexample :
  (In short_month (months overlap_db)
   /\ overlap long_month short_month
   /\ MonthMixin.validate_len_interval long_month = Ok tt
   /\ ValidationMonthAndWeekIntervalMixin.validate_interval overlap_db long_month = Ok tt)
  /\ (In W1 (weeks overlap_db)
      /\ overlap late_week W1
      /\ WeekMixin.validate_len_interval late_week = Ok tt
      /\ ValidationMonthAndWeekIntervalMixin.validate_interval overlap_db late_week = Ok tt).
Proof.
  split; (split; [simpl; auto|]); (split; [vm_compute; split; discriminate|]);
    split; reflexivity.
Qed.

(** C3, amended.  For Month and for Week alike, the overlap check fails
    with OverlappingInterval exactly when the start or the end of the new
    record lies strictly inside the interval of a stored sibling
    ([sibling.start < boundary < sibling.end]), and the error names exactly
    the boundaries that do, the start before the end. *)
Theorem exist_interval_strict_boundaries
  (A : Type) (I : IntervalModel A) (db : DB) (self : A) :
  (ValidationMonthAndWeekIntervalMixin.validate_exist_interval db self = Ok tt
   <-> ~ strictly_inside A db (start self) /\ ~ strictly_inside A db (end_ self))
  /\ (strictly_inside A db (start self) -> ~ strictly_inside A db (end_ self) ->
      ValidationMonthAndWeekIntervalMixin.validate_exist_interval db self
      = Raise (ValidationError [OverlappingInterval start_verbose_name]))
  /\ (~ strictly_inside A db (start self) -> strictly_inside A db (end_ self) ->
      ValidationMonthAndWeekIntervalMixin.validate_exist_interval db self
      = Raise (ValidationError [OverlappingInterval end_verbose_name]))
  /\ (strictly_inside A db (start self) -> strictly_inside A db (end_ self) ->
      ValidationMonthAndWeekIntervalMixin.validate_exist_interval db self
      = Raise (ValidationError [OverlappingInterval start_verbose_name;
                                OverlappingInterval end_verbose_name])).
Proof.
  rewrite validate_exist_interval_unfold.
  pose proof (strictly_inside_find db (start self)) as Hs.
  pose proof (strictly_inside_find db (end_ self)) as He.
  cbv zeta.
  destruct (is_some (find (fun o : A => (start o <? start self) && (end_ o >? start self))
                          (objects db)));
    destruct (is_some (find (fun o : A => (start o <? end_ self) && (end_ o >? end_ self))
                            (objects db)));
    simpl; (split; [|split; [|split]]).
  all: try (intros Ha Hb).
  all: try reflexivity.
  all: try (exfalso; first [apply Ha, Hs; reflexivity | apply Ha, He; reflexivity
                           | apply Hb, Hs; reflexivity | apply Hb, He; reflexivity
                           | apply Hs in Ha; discriminate | apply He in Ha; discriminate
                           | apply Hs in Hb; discriminate | apply He in Hb; discriminate]).
  all: split; try discriminate.
  all: try (intros [Ha Hb]; exfalso;
            first [apply Ha, Hs; reflexivity | apply Hb, He; reflexivity]).
  all: try reflexivity.
  intros _. split; intros Hx; [apply Hs in Hx|apply He in Hx]; discriminate.
Qed.

(** ** The object of an update or a delete *)

Lemma get_object_or_404_cases (db : DB) (d : Datetime.date) (user : Z) :
  (Shortcuts.get_object_or_404 db d user = Raise Http404
   <-> forall x, In x (schedules db) -> ~ (date x = d /\ author x = user))
  /\ (forall obj, Shortcuts.get_object_or_404 db d user = Ok obj ->
        In obj (schedules db) /\ date obj = d /\ author obj = user).
Proof.
  unfold Shortcuts.get_object_or_404.
  set (q := fun x => (date x =? d) && (author x =? user)).
  assert (Hq : forall x, In x (filter q (schedules db))
                         <-> In x (schedules db) /\ date x = d /\ author x = user).
  { intros x. rewrite filter_In. unfold q. split; intros [Hx Hb]; (split; [exact Hx|lia]). }
  destruct (filter q (schedules db)) as [|a [|b l]]; split.
  - split; [|reflexivity]. intros _ x Hx Hm. apply (Hq x). auto.
  - discriminate.
  - split; [discriminate|]. intros Hno. exfalso.
    destruct (proj1 (Hq a) (or_introl eq_refl)) as [Ha Hm]. now apply (Hno a).
  - intros obj [= <-]. apply Hq. now left.
  - split; [discriminate|]. intros Hno. exfalso.
    destruct (proj1 (Hq a) (or_introl eq_refl)) as [Ha Hm]. now apply (Hno a).
  - discriminate.
Qed.

(** The segment 2024-13-01 is refused whatever the decimal digits beyond
    ASCII are: it holds ASCII characters only. *)
Lemma month_13_is_refused (U : UnicodeDigits) (db : DB) (user : Z) :
  Strptime.strptime_date "2024-13-01" = Raise ValueError
  /\ ScheduleChangeMixin.get_object db user "2024-13-01" = Raise ValueError.
Proof. split; reflexivity. Qed.

(** C4, as stated, fails: the date segment 2024-13-01 is malformed, and
    resolving the object raises ValueError, which is not the not-found
    outcome. *)
Lemma malformed_date_counterexample :
  ScheduleChangeMixin.get_object sample_db 1 "2024-13-01" = Raise ValueError
  /\ ScheduleChangeMixin.get_object sample_db 1 "2024-13-01" <> Raise Http404
  /\ ScheduleChangeMixin.get_object sample_db 1 "someday" = Raise ValueError.
Proof.
  split; [reflexivity|]. split; [discriminate|reflexivity].
Qed.

(** C4, amended.  The date segment is parsed with the format %Y-%m-%d,
    whatever decimal digits the interpreter knows beyond ASCII.
    When it parses to [d], the record is looked up by the pair ([d],
    requesting user): the result is NotFound exactly when no record has
    that date and that author (so also when the records of that date belong
    to other authors), and a returned record has that date and that author.
    When the segment does not parse, the ValueError of the parser leaves
    [get_object] as it is. *)
Theorem get_object_by_date_and_author
  (U : UnicodeDigits) (db : DB) (user : Z) (date_str : string) :
  (forall d, Strptime.strptime_date date_str = Ok d ->
     ScheduleChangeMixin.get_object db user date_str
       = Shortcuts.get_object_or_404 db d user
     /\ (ScheduleChangeMixin.get_object db user date_str = Raise Http404
         <-> forall x, In x (schedules db) -> ~ (date x = d /\ author x = user))
     /\ (forall obj, ScheduleChangeMixin.get_object db user date_str = Ok obj ->
           In obj (schedules db) /\ date obj = d /\ author obj = user))
  /\ (forall e, Strptime.strptime_date date_str = Raise e ->
        e = ValueError
        /\ ScheduleChangeMixin.get_object db user date_str = Raise ValueError).
Proof.
  split.
  - intros d Hd.
    assert (Hg : ScheduleChangeMixin.get_object db user date_str
                 = Shortcuts.get_object_or_404 db d user).
    { unfold ScheduleChangeMixin.get_object. rewrite Hd. cbn [bind].
      now destruct (Shortcuts.get_object_or_404 db d user). }
    rewrite Hg. split; [reflexivity|]. apply get_object_or_404_cases.
  - intros e He.
    assert (Hv : e = ValueError).
    { unfold Strptime.strptime_date, Datetime.mk_date in He.
      repeat match type of He with
             | match ?x with _ => _ end = _ => destruct x
             | (if ?x then _ else _) = _ => destruct x
             | (let (_, _) := ?x in _) = _ => destruct x
             end; congruence. }
    split; [exact Hv|]. subst e.
    unfold ScheduleChangeMixin.get_object. rewrite He. reflexivity.
Qed.

(** ** Collisions of schedules *)

Lemma validate_exist_schedule_Ok (db : DB) (self : Schedule) (ws : list (option Week)) :
  ScheduleMixin.get_related_week_objects db self = Ok ws ->
  (ScheduleMixin.validate_exist_schedule db self = Ok tt
   <-> forall w x,
         In w ws -> In x (schedules db) ->
         author x = author self -> week_is (week x) w = true ->
         Datetime.weekday (date x) = Datetime.weekday (date self) ->
         model_ne x (current_schedule_of db self) = false).
Proof.
  intros Hws. unfold ScheduleMixin.validate_exist_schedule. rewrite Hws. cbn [bind].
  fold (current_schedule_of db self).
  rewrite for_each_Ok. split.
  - intros Hall w x Hw Hx Ha Hwk Hday.
    specialize (Hall w Hw). rewrite for_each_Ok in Hall.
    assert (Hin : In x (filter (fun x => (author x =? author self)
                                         && week_is (week x) w) (schedules db))).
    { apply filter_In. split; [exact Hx|]. rewrite Hwk.
      apply andb_true_iff. split; [lia|reflexivity]. }
    specialize (Hall x Hin). rewrite Hday, Z.eqb_refl in Hall. simpl in Hall.
    destruct (model_ne x (current_schedule_of db self)); [discriminate|reflexivity].
  - intros Hall w Hw. apply for_each_Ok. intros x Hin.
    apply filter_In in Hin. destruct Hin as [Hx Hb].
    apply andb_true_iff in Hb. destruct Hb as [Ha Hwk].
    destruct (Datetime.weekday (date x) =? Datetime.weekday (date self)) eqn:Ed;
      [|reflexivity].
    rewrite (Hall w x Hw Hx) by (auto; lia). reflexivity.
Qed.

Lemma validate_exist_schedule_outcomes (db : DB) (self : Schedule) (ws : list (option Week)) :
  ScheduleMixin.get_related_week_objects db self = Ok ws ->
  ScheduleMixin.validate_exist_schedule db self = Ok tt
  \/ ScheduleMixin.validate_exist_schedule db self
     = Raise (ValidationError [ScheduleCollision]).
Proof.
  intros Hws. unfold ScheduleMixin.validate_exist_schedule. rewrite Hws. cbn [bind].
  match goal with |- ?r = _ \/ _ => destruct r as [[]|e] eqn:E end; [now left|right].
  apply for_each_Raise in E. destruct E as [w [_ E]].
  apply for_each_Raise in E. destruct E as [x [_ E]].
  destruct ((Datetime.weekday (date x) =? Datetime.weekday (date self))
            && model_ne x (find (fun x0 => (date x0 =? date self)
                                           && (author x0 =? author self))
                                (schedules db)));
    [now injection E as <-|discriminate].
Qed.

(** With the weeks derived from the dates, a non-colliding row is the only
    one of its author on its date. *)
Lemma week_derived_sole_record (db : DB) (self : Schedule) (ws : list (option Week)) :
  week_derived db ->
  In (ScheduleMixin.get_related_obj db (date self)) ws ->
  non_colliding db self ws ->
  sole_record db self.
Proof.
  intros Hder Hbase Hnc x Hx Hd Ha.
  apply (Hnc x (ScheduleMixin.get_related_obj db (date self))); auto.
  - rewrite <- Hd. now apply Hder.
  - now rewrite Hd.
Qed.

Lemma find_filter_implied {A : Type} (p q : A -> bool) (l : list A) :
  (forall x, p x = true -> q x = true) -> find p (filter q l) = find p l.
Proof.
  intros Hpq. induction l as [|a l IH]; simpl; [reflexivity|].
  destruct (q a) eqn:Eq; simpl.
  - now rewrite IH.
  - destruct (p a) eqn:Ep; [|exact IH].
    rewrite (Hpq a Ep) in Eq. discriminate.
Qed.

Lemma filter_filter_implied {A : Type} (p q : A -> bool) (l : list A) :
  (forall x, p x = true -> q x = true) -> filter p (filter q l) = filter p l.
Proof.
  intros Hpq. induction l as [|a l IH]; simpl; [reflexivity|].
  destruct (q a) eqn:Eq; simpl.
  - now rewrite IH.
  - destruct (p a) eqn:Ep; [|exact IH].
    rewrite (Hpq a Ep) in Eq. discriminate.
Qed.

Lemma for_each_ext {A : Type} (l : list A) (f g : A -> result unit) :
  (forall x, f x = g x) -> for_each l f = for_each l g.
Proof.
  intros Hfg. induction l as [|a l IH]; simpl; [reflexivity|].
  now rewrite Hfg, IH.
Qed.

(** The schedules of other authors play no part in the conflict check. *)
Lemma other_authors_ignored (db : DB) (self : Schedule) :
  ScheduleMixin.validate_exist_schedule db self
  = ScheduleMixin.validate_exist_schedule (schedules_of db (author self)) self.
Proof.
  unfold ScheduleMixin.validate_exist_schedule.
  change (ScheduleMixin.get_related_week_objects (schedules_of db (author self)) self)
    with (ScheduleMixin.get_related_week_objects db self).
  destruct (ScheduleMixin.get_related_week_objects db self) as [ws|e];
    [|reflexivity].
  cbn [bind schedules schedules_of].
  rewrite find_filter_implied
    by (intros x Hx; apply andb_true_iff in Hx; tauto).
  apply for_each_ext. intros w.
  rewrite filter_filter_implied
    by (intros x Hx; apply andb_true_iff in Hx; tauto).
  reflexivity.
Qed.

(** C1: the conflict check on a second schedule of author A on the Monday
    on which A already has one.  The collision rule holds (the stored
    schedule lies in the resolved week, has the same author and weekday and
    another primary key), and the check returns without error, because the
    stored schedule is taken for the current one. *)
Theorem same_day_duplicate_not_detected :
  spec_collision sample_db second_monday_of_A
  /\ current_schedule_of sample_db second_monday_of_A = Some monday_of_A
  /\ ScheduleMixin.validate_exist_schedule sample_db second_monday_of_A = Ok tt.
Proof.
  split; [|split; reflexivity].
  exists d2024_01_01, W1, monday_of_A.
  split; [now left|]. split; [reflexivity|]. split; [now left|].
  split; [reflexivity|]. split; [reflexivity|]. split; [reflexivity|discriminate].
Qed.

(** C6.  For a persisted schedule that is its author's only record on its
    date and with which no other record of the author collides in its week
    objects, the conflict check on that same record and store raises no
    error, and neither does running it twice in a row. *)
Theorem revalidation_is_idempotent
  (db : DB) (self : Schedule) (key : Z) (ws : list (option Week)) :
  In self (schedules db) ->
  pk self = Some key ->
  ScheduleMixin.get_related_week_objects db self = Ok ws ->
  sole_record db self ->
  non_colliding db self ws ->
  ScheduleMixin.validate_exist_schedule db self = Ok tt
  /\ (ScheduleMixin.validate_exist_schedule db self ;;;
      ScheduleMixin.validate_exist_schedule db self) = Ok tt.
Proof.
  intros Hin Hpk Hws Hsole Hnc.
  assert (Hok : ScheduleMixin.validate_exist_schedule db self = Ok tt).
  { apply (validate_exist_schedule_Ok db self ws Hws).
    intros w x Hw Hx Ha Hwk Hday.
    pose proof (Hnc x w Hx Hw Ha Hwk Hday) as Hxpk.
    unfold current_schedule_of.
    destruct (find (fun x0 => (date x0 =? date self) && (author x0 =? author self))
                   (schedules db)) as [c|] eqn:Ec.
    - apply find_some in Ec. destruct Ec as [Hc Hb].
      assert (Hcpk : pk c = pk self) by (apply Hsole; auto; lia).
      unfold model_ne, model_eq. rewrite Hxpk, Hcpk, Hpk, Z.eqb_refl. reflexivity.
    - exfalso. apply (find_none _ _ Ec) in Hin.
      rewrite !Z.eqb_refl in Hin. discriminate. }
  split; [exact Hok|]. rewrite Hok. reflexivity.
Qed.

(** A run of C6 on the stored Monday schedule of author A. *)
Lemma revalidation_is_idempotent_witness :
  In monday_of_A (schedules sample_db)
  /\ pk monday_of_A = Some 1
  /\ ScheduleMixin.get_related_week_objects sample_db monday_of_A = Ok [Some W1]
  /\ sole_record sample_db monday_of_A
  /\ non_colliding sample_db monday_of_A [Some W1]
  /\ ScheduleMixin.validate_exist_schedule sample_db monday_of_A = Ok tt
  /\ (ScheduleMixin.validate_exist_schedule sample_db monday_of_A ;;;
      ScheduleMixin.validate_exist_schedule sample_db monday_of_A) = Ok tt.
Proof.
  assert (Hin : In monday_of_A (schedules sample_db)) by (simpl; auto).
  assert (Hsole : sole_record sample_db monday_of_A).
  { intros x [<-|[<-|[<-|[]]]] Hd Ha; try reflexivity; discriminate. }
  assert (Hnc : non_colliding sample_db monday_of_A [Some W1]).
  { intros x w [<-|[<-|[<-|[]]]] Hw Ha Hwk Hday; try reflexivity; discriminate. }
  split; [exact Hin|]. split; [reflexivity|]. split; [reflexivity|].
  split; [exact Hsole|]. split; [exact Hnc|].
  apply (revalidation_is_idempotent sample_db monday_of_A 1 [Some W1]);
    [exact Hin|reflexivity|reflexivity|exact Hsole|exact Hnc].
Defined.

Lemma validate_exist_interval_Ok_iff
  {A : Type} `{IntervalModel A} (db : DB) (self : A) :
  ValidationMonthAndWeekIntervalMixin.validate_exist_interval db self = Ok tt
  <-> ~ strictly_inside A db (start self) /\ ~ strictly_inside A db (end_ self).
Proof.
  rewrite validate_exist_interval_unfold.
  pose proof (strictly_inside_find db (start self)) as Hs.
  pose proof (strictly_inside_find db (end_ self)) as He.
  cbv zeta.
  destruct (is_some (find (fun o : A => (start o <? start self) && (end_ o >? start self))
                          (objects db)));
    destruct (is_some (find (fun o : A => (start o <? end_ self) && (end_ o >? end_ self))
                            (objects db)));
    simpl; split; try discriminate.
  all: try (intros [Ha Hb]; exfalso;
            first [apply Ha, Hs; reflexivity | apply Hb, He; reflexivity]).
  - intros _. split; intros Hx; [apply Hs in Hx|apply He in Hx]; discriminate.
  - reflexivity.
Qed.

(** ** Intervals: order of the checks, and what a refusal means *)

(** X1.  The interval validation reports an interval whose start is not
    before its end as InvalidInterval whatever the table holds, runs the
    overlap check otherwise, and passes exactly when the start is before the
    end and neither boundary is strictly inside a stored sibling. *)
Theorem validate_interval_order (A : Type) (I : IntervalModel A) (db : DB) (self : A) :
  (start self >= end_ self ->
     ValidationMonthAndWeekIntervalMixin.validate_interval db self
     = Raise (ValidationError [InvalidInterval]))
  /\ (start self < end_ self ->
      ValidationMonthAndWeekIntervalMixin.validate_interval db self
      = ValidationMonthAndWeekIntervalMixin.validate_exist_interval db self)
  /\ (ValidationMonthAndWeekIntervalMixin.validate_interval db self = Ok tt
      <-> start self < end_ self
          /\ ~ strictly_inside A db (start self)
          /\ ~ strictly_inside A db (end_ self)).
Proof.
  unfold ValidationMonthAndWeekIntervalMixin.validate_interval,
    ValidationMonthAndWeekIntervalMixin.validate_incorrect_interval.
  rewrite validate_exist_interval_unfold.
  pose proof (strictly_inside_find db (start self)) as Hs.
  pose proof (strictly_inside_find db (end_ self)) as He.
  cbv zeta.
  destruct (start self >=? end_ self) eqn:E; cbn [bind].
  - split; [reflexivity|]. split; [lia|]. split; [discriminate|lia].
  - split; [lia|]. split; [reflexivity|].
    destruct (is_some (find (fun o : A => (start o <? start self) && (end_ o >? start self))
                            (objects db)));
      destruct (is_some (find (fun o : A => (start o <? end_ self) && (end_ o >? end_ self))
                              (objects db)));
      simpl; split; try discriminate.
    all: try (intros [_ [Ha Hb]]; exfalso;
              first [apply Ha, Hs; reflexivity | apply Hb, He; reflexivity]).
    + intros _. split; [lia|].
      split; intros Hx; [apply Hs in Hx|apply He in Hx]; discriminate.
    + reflexivity.
Qed.

(** X2.  A refusal points at a stored row: when the interval validation
    raises, either the interval itself is invalid, or its start is before
    its end and some stored row of the model has the start or the end of
    the record strictly inside its interval, and so shares a day with the
    record.  That row may be the stored row of the record itself, when a
    stored record is validated again with moved dates: the check does not
    leave it out. *)
Theorem refusal_means_overlap
  (A : Type) (I : IntervalModel A) (db : DB) (self : A) (e : exn) :
  ValidationMonthAndWeekIntervalMixin.validate_interval db self = Raise e ->
  e = ValidationError [InvalidInterval]
  \/ (start self < end_ self
      /\ exists o, In o (objects db) /\ overlap self o
                   /\ (start o < start self < end_ o \/ start o < end_ self < end_ o)).
Proof.
  unfold ValidationMonthAndWeekIntervalMixin.validate_interval,
    ValidationMonthAndWeekIntervalMixin.validate_incorrect_interval.
  destruct (start self >=? end_ self) eqn:E; cbn [bind].
  - intros [= <-]. now left.
  - intros Hr. right. split; [lia|].
    rewrite validate_exist_interval_unfold in Hr. cbv zeta in Hr.
    destruct (is_some (find (fun o : A => (start o <? start self) && (end_ o >? start self))
                            (objects db))) eqn:Es.
    + apply strictly_inside_find in Es. destruct Es as [o [Ho Hb]].
      exists o. split; [exact Ho|]. unfold overlap. split; [lia|]. now left.
    + destruct (is_some (find (fun o : A => (start o <? end_ self) && (end_ o >? end_ self))
                              (objects db))) eqn:Ee; [|discriminate].
      apply strictly_inside_find in Ee. destruct Ee as [o [Ho Hb]].
      exists o. split; [exact Ho|]. unfold overlap. split; [lia|]. now right.
Qed.

(** A run of X2: a month from 15 January to 15 February 2024 is refused
    because of the stored month of January, which it overlaps. *)
Lemma refusal_means_overlap_witness :
  ValidationMonthAndWeekIntervalMixin.validate_interval january_db new_mid_january
  = Raise (ValidationError [OverlappingInterval month_start_verbose_name])
  /\ exists o, In o (months january_db) /\ overlap new_mid_january o.
Proof.
  assert (Hr : ValidationMonthAndWeekIntervalMixin.validate_interval january_db new_mid_january
               = Raise (ValidationError [OverlappingInterval month_start_verbose_name]))
    by reflexivity.
  split; [exact Hr|].
  destruct (refusal_means_overlap Month (@Month_model sample_meta) january_db
              new_mid_january _ Hr)
    as [Hinv|[_ [o [Ho [Hov _]]]]]; [discriminate|].
  exists o. auto.
Defined.

(** The row that causes a refusal can be the record's own: the week of
    8 January 2024, moved one day later, is refused against a table that
    holds nothing but its stored row. *)
Example moved_week_refused_by_own_row :
  week_pk moved_W2 = week_pk W2
  /\ weeks only_W2_db = [W2]
  /\ ValidationMonthAndWeekIntervalMixin.validate_interval only_W2_db moved_W2
     = Raise (ValidationError [OverlappingInterval week_start_verbose_name]).
Proof. repeat split; reflexivity. Qed.

(** X3.  Among intervals of one length the overlap check lets through
    exactly three kinds of overlap: when every stored sibling is as long as
    the new record, the check passes if and only if each sibling that shares
    a day with the record has the same interval, or starts on the last day
    of the record, or ends on its first day. *)
Theorem equal_length_overlaps_let_through
  (A : Type) (I : IntervalModel A) (db : DB) (self : A) :
  start self <= end_ self ->
  (forall o, In o (objects db) -> end_ o - start o = end_ self - start self) ->
  (ValidationMonthAndWeekIntervalMixin.validate_exist_interval db self = Ok tt
   <-> forall o, In o (objects db) -> overlap self o ->
         start o = start self \/ start o = end_ self \/ end_ o = start self).
Proof.
  intros Hle Hlen.
  rewrite validate_exist_interval_Ok_iff. unfold strictly_inside, overlap. split.
  - intros [Hs He] o Ho Hov. specialize (Hlen o Ho).
    assert (~ start o < start self < end_ o) by (intros Hx; apply Hs; eauto).
    assert (~ start o < end_ self < end_ o) by (intros Hx; apply He; eauto).
    lia.
  - intros Hall. split; intros [o [Ho Hb]]; specialize (Hlen o Ho);
      (assert (Hov : start self <= end_ o /\ start o <= end_ self) by lia);
      specialize (Hall o Ho Hov); lia.
Qed.

(** A run of X3: the new week that starts on the last day of the stored
    week of 1 January 2024 passes. *)
Lemma equal_length_overlaps_let_through_witness :
  overlap late_week W1
  /\ ValidationMonthAndWeekIntervalMixin.validate_exist_interval overlap_db late_week
     = Ok tt.
Proof.
  split; [vm_compute; split; discriminate|].
  apply (equal_length_overlaps_let_through Week (@Week_model sample_meta) overlap_db late_week).
  - vm_compute. discriminate.
  - intros o [<-|[]]. reflexivity.
  - intros o [<-|[]] _. right. right. reflexivity.
Defined.

(** X4.  Saving a stored record again does not make it collide with
    itself: in a table where every row has the interval of the record or
    shares no day with it, the overlap check passes. *)
Theorem resave_does_not_self_collide
  (A : Type) (I : IntervalModel A) (db : DB) (self : A) :
  start self <= end_ self ->
  (forall o, In o (objects db) ->
     (start o = start self /\ end_ o = end_ self) \/ ~ overlap self o) ->
  ValidationMonthAndWeekIntervalMixin.validate_exist_interval db self = Ok tt.
Proof.
  intros Hle Hall.
  apply validate_exist_interval_Ok_iff. unfold strictly_inside.
  split; intros [o [Ho Hb]]; destruct (Hall o Ho) as [[Hs He]|Hno];
    try lia; apply Hno; unfold overlap; lia.
Qed.

(** A run of X4 on the stored week of 8 January 2024. *)
Lemma resave_does_not_self_collide_witness :
  In W2 (weeks sample_db)
  /\ ValidationMonthAndWeekIntervalMixin.validate_exist_interval sample_db W2 = Ok tt.
Proof.
  assert (Hin : In W2 (weeks sample_db)) by (simpl; auto).
  split; [exact Hin|].
  apply (resave_does_not_self_collide Week (@Week_model sample_meta) sample_db W2).
  - vm_compute. discriminate.
  - intros o [<-|[<-|[<-|[]]]].
    + right. unfold overlap. vm_compute. intros [Ha Hb]. now apply Hb.
    + left. split; reflexivity.
    + right. unfold overlap. vm_compute. intros [Ha Hb]. now apply Ha.
Defined.

Lemma month_len_Ok_iff (M : Meta) (m : Month) :
  (MonthMixin.validate_len_interval m = Ok tt
   <-> month_end m - month_start m + 1 = 28 \/ month_end m - month_start m + 1 = 35)
  /\ TrueDiffInterval.get_true_diff m = month_end m - month_start m + 1.
Proof.
  split; [|reflexivity].
  assert (Hn : TrueDiffInterval.get_true_diff m = month_end m - month_start m + 1)
    by reflexivity.
  unfold MonthMixin.validate_len_interval. rewrite Hn.
  generalize (month_end m - month_start m + 1). intros n.
  assert (Hdm : n = 7 * (n / 7) + n mod 7) by (apply Z.div_mod; lia).
  assert (Hm : 0 <= n mod 7 < 7) by (apply Z.mod_pos_bound; lia).
  destruct (n mod 7 =? 0) eqn:E1; simpl.
  - destruct ((n / 7 <? 4) || (n / 7 >? 5)) eqn:E2.
    + split; [discriminate|lia].
    + split; [lia|reflexivity].
  - split; [discriminate|lia].
Qed.

(** ** Lengths *)

(** X5.  The length checks subsume the order check: a Week passes its
    length check exactly when its end is six days after its start, and a
    Week or a Month that passes its length check has its start before its
    end. *)
Theorem length_check_implies_order (M : Meta) (w : Week) (m : Month) :
  (WeekMixin.validate_len_interval w = Ok tt <-> week_end w = week_start w + 6)
  /\ (WeekMixin.validate_len_interval w = Ok tt \/
      WeekMixin.validate_len_interval w = Raise (ValidationError [WrongWeekLength]))
  /\ (WeekMixin.validate_len_interval w = Ok tt ->
      ValidationMonthAndWeekIntervalMixin.validate_incorrect_interval w = Ok tt)
  /\ (MonthMixin.validate_len_interval m = Ok tt ->
      (month_end m = month_start m + 27 \/ month_end m = month_start m + 34)
      /\ ValidationMonthAndWeekIntervalMixin.validate_incorrect_interval m = Ok tt).
Proof.
  assert (Hw : WeekMixin.validate_len_interval w
               = if negb (week_end w - week_start w + 1 =? 7)
                 then Raise (ValidationError [WrongWeekLength]) else Ok tt)
    by reflexivity.
  assert (Hiw : ValidationMonthAndWeekIntervalMixin.validate_incorrect_interval w
                = if week_start w >=? week_end w
                  then Raise (ValidationError [InvalidInterval]) else Ok tt)
    by reflexivity.
  assert (Him : ValidationMonthAndWeekIntervalMixin.validate_incorrect_interval m
                = if month_start m >=? month_end m
                  then Raise (ValidationError [InvalidInterval]) else Ok tt)
    by reflexivity.
  rewrite Hw, Hiw, Him.
  split; [|split; [|split]].
  - destruct (week_end w - week_start w + 1 =? 7) eqn:E; simpl;
      (split; [intros Hx|intros Hx]); try discriminate; try reflexivity; lia.
  - destruct (week_end w - week_start w + 1 =? 7); simpl; auto.
  - destruct (week_end w - week_start w + 1 =? 7) eqn:E; simpl; [|discriminate].
    intros _. destruct (week_start w >=? week_end w) eqn:E2; [lia|reflexivity].
  - intros Hok.
    destruct (month_len_Ok_iff M m) as [Hiff Hlen].
    apply Hiff in Hok.
    split; [lia|].
    destruct (month_start m >=? month_end m) eqn:E2; [lia|reflexivity].
Qed.

(** X6.  For a Month that passes the length check and whose end is a date,
    the date used to find its Year exists and lies inside the Month: the
    [start + 15 days] cannot overflow, so looking up the Year raises
    nothing. *)
Theorem midpoint_inside_month (M : Meta) (db : DB) (m : Month) :
  MonthMixin.validate_len_interval m = Ok tt ->
  Datetime.valid_date (month_start m) ->
  Datetime.valid_date (month_end m) ->
  MonthMixin.get_average_date m = Ok (month_start m + 15)
  /\ month_start m < month_start m + 15 < month_end m
  /\ exists o, MonthMixin.get_related_obj db m = Ok o.
Proof.
  intros Hok Hs He.
  destruct (month_len_Ok_iff M m) as [Hiff _].
  apply Hiff in Hok.
  assert (Havg : MonthMixin.get_average_date m = Ok (month_start m + 15)).
  { unfold MonthMixin.get_average_date.
    change (Datetime.timedelta 15) with (@Ok Z 15). cbn [bind].
    unfold Datetime.add. unfold Datetime.valid_date in *.
    destruct ((0 <? month_start m + 15)
              && (month_start m + 15 <=? Datetime.MAXORDINAL)) eqn:E;
      [reflexivity|lia]. }
  split; [exact Havg|]. split; [lia|].
  unfold MonthMixin.get_related_obj. rewrite Havg. cbn [bind]. eauto.
Qed.

(** A run of X6 on January 2024. *)
Lemma midpoint_inside_month_witness :
  MonthMixin.validate_len_interval january = Ok tt
  /\ MonthMixin.get_average_date january = Ok (d2024_01_01 + 15).
Proof.
  split; [reflexivity|].
  apply (midpoint_inside_month sample_meta sample_db january);
    [reflexivity|vm_compute; split; discriminate|vm_compute; split; discriminate].
Defined.

(** ** Repetition and the weeks it resolves *)

Lemma map_each_length {A B : Type} (l : list A) (f : A -> result B) (ys : list B) :
  map_each l f = Ok ys -> List.length ys = List.length l.
Proof.
  revert ys. induction l as [|a l IH]; simpl; intros ys.
  - now intros [= <-].
  - destruct (f a) as [y|e]; simpl; [|discriminate].
    destruct (map_each l f) as [ys'|e]; simpl; [|discriminate].
    intros [= <-]. simpl. now rewrite (IH ys').
Qed.

Lemma map_each_Raise {A B : Type} (l : list A) (f : A -> result B) (e : exn) :
  map_each l f = Raise e -> exists x, In x l /\ f x = Raise e.
Proof.
  induction l as [|a l IH]; simpl; [discriminate|].
  destruct (f a) as [y|e'] eqn:Ea; simpl.
  - destruct (map_each l f) as [ys|e'']; simpl; [discriminate|].
    intros [= <-]. destruct (IH eq_refl) as [x [Hx Hf]]. exists x. auto.
  - intros [= <-]. exists a. auto.
Qed.

Lemma range_length (a b : Z) : List.length (range a b) = Z.to_nat (b - a).
Proof. unfold range. now rewrite length_map, length_seq. Qed.

Lemma weekday_plus_weeks (d n : Z) :
  Datetime.weekday (d + 7 * n) = Datetime.weekday d.
Proof.
  unfold Datetime.weekday.
  replace (d + 7 * n + 6) with (d + 6 + n * 7) by ring.
  apply Z.mod_add. lia.
Qed.

Lemma week_objects_base_last (db : DB) (self : Schedule) (ws : list (option Week)) :
  ScheduleMixin.get_related_week_objects db self = Ok ws ->
  exists front, ws = front ++ [ScheduleMixin.get_related_obj db (date self)].
Proof.
  unfold ScheduleMixin.get_related_week_objects.
  match goal with
  | |- bind ?m _ = _ -> _ => destruct m as [front|e]; [|discriminate]
  end.
  cbn [bind]. intros [= <-]. now exists front.
Qed.

(** X7.  Every date that the repetition loop builds falls on the weekday
    of the base date; so when the base date passes the Sunday check, no
    repeated date is a Sunday. *)
Theorem repeats_keep_weekday
  (self : Schedule) (rate repeat delta : Z) (new_date : Datetime.date) :
  Datetime.timedelta ((7 * rate) * repeat) = Ok delta ->
  Datetime.add (date self) delta = Ok new_date ->
  new_date = date self + 7 * rate * repeat
  /\ Datetime.weekday new_date = Datetime.weekday (date self)
  /\ (ScheduleMixin.validate_sunday self = Ok tt -> Datetime.weekday new_date <> 6).
Proof.
  unfold Datetime.timedelta, Datetime.add. cbv zeta.
  destruct (Z.abs (7 * rate * repeat) <=? 999999999); [|discriminate].
  intros Hd. assert (Hdelta : delta = 7 * rate * repeat) by congruence.
  subst delta. clear Hd.
  destruct ((0 <? date self + 7 * rate * repeat)
            && (date self + 7 * rate * repeat <=? Datetime.MAXORDINAL));
    [|discriminate].
  intros Hn. assert (Hnew : new_date = date self + 7 * rate * repeat) by congruence.
  subst new_date. clear Hn.
  assert (Hw : Datetime.weekday (date self + 7 * rate * repeat)
               = Datetime.weekday (date self)).
  { replace (7 * rate * repeat) with (7 * (rate * repeat)) by ring.
    apply weekday_plus_weeks. }
  split; [reflexivity|]. split; [exact Hw|].
  rewrite Hw. unfold ScheduleMixin.validate_sunday.
  destruct (Datetime.weekday (date self) =? 6) eqn:E; [discriminate|]. lia.
Qed.

(** A run of X7: the second repeat of the Monday 1 January 2024 is the
    Monday 15 January. *)
Lemma repeats_keep_weekday_witness :
  Datetime.timedelta ((7 * 1) * 2) = Ok 14
  /\ Datetime.add (date repeated_twice) 14 = Ok (d2024_01_01 + 14)
  /\ Datetime.weekday (d2024_01_01 + 14) = Datetime.weekday (date repeated_twice).
Proof.
  split; [reflexivity|]. split; [reflexivity|].
  apply (repeats_keep_weekday repeated_twice 1 2 14 (d2024_01_01 + 14));
    reflexivity.
Defined.

(** X8.  Week resolution either raises OverflowError, and only when both
    repetition fields are truthy, or returns a list that ends with the week
    object of the base date, preceded by one week object per repeat: none
    when a field is absent or 0 or when the count is negative.  Both the
    existence check and the conflict check raise what week resolution
    raises. *)
Theorem week_objects_shape (db : DB) (self : Schedule) :
  (forall e, ScheduleMixin.get_related_week_objects db self = Raise e ->
     e = OverflowError
     /\ truthy (repetition_rate self) && truthy (repetition_count self) = true
     /\ ScheduleMixin.validate_exist_weeks db self = Raise e
     /\ ScheduleMixin.validate_exist_schedule db self = Raise e)
  /\ (forall ws, ScheduleMixin.get_related_week_objects db self = Ok ws ->
        exists front,
          ws = front ++ [ScheduleMixin.get_related_obj db (date self)]
          /\ List.length front
             = if truthy (repetition_rate self) && truthy (repetition_count self)
               then match repetition_count self with
                    | Some count => Z.to_nat count
                    | None => 0%nat
                    end
               else 0%nat).
Proof.
  split.
  - intros e He.
    assert (Hprop : ScheduleMixin.validate_exist_weeks db self = Raise e
                    /\ ScheduleMixin.validate_exist_schedule db self = Raise e).
    { unfold ScheduleMixin.validate_exist_weeks, ScheduleMixin.validate_exist_schedule.
      rewrite He. split; reflexivity. }
    unfold ScheduleMixin.get_related_week_objects in He.
    destruct (truthy (repetition_rate self) && truthy (repetition_count self)) eqn:Et;
      [|discriminate].
    destruct (repetition_rate self) as [rate|]; [|discriminate].
    destruct (repetition_count self) as [count|]; [|discriminate].
    match type of He with
    | bind ?m _ = _ => destruct m as [front|e'] eqn:Em; [discriminate|]
    end.
    cbn [bind] in He. injection He as <-.
    apply map_each_Raise in Em. destruct Em as [k [_ Hk]].
    split; [|split; [reflexivity|exact Hprop]].
    unfold Datetime.timedelta, Datetime.add in Hk. cbv zeta in Hk.
    destruct (Z.abs (7 * rate * k) <=? 999999999); cbn [bind] in Hk;
      [|congruence].
    destruct ((0 <? date self + 7 * rate * k)
              && (date self + 7 * rate * k <=? Datetime.MAXORDINAL));
      cbn [bind] in Hk; congruence.
  - intros ws Hws. unfold ScheduleMixin.get_related_week_objects in Hws.
    destruct (truthy (repetition_rate self) && truthy (repetition_count self)) eqn:Et.
    + destruct (repetition_rate self) as [rate|]; [|discriminate].
      destruct (repetition_count self) as [count|];
        [|simpl in Et; rewrite andb_false_r in Et; discriminate].
      match type of Hws with
      | bind ?m _ = _ => destruct m as [front|e'] eqn:Em; [|discriminate]
      end.
      cbn [bind] in Hws. injection Hws as <-.
      exists front. split; [reflexivity|].
      apply map_each_length in Em. rewrite Em, range_length. f_equal. lia.
    + cbn [bind] in Hws. injection Hws as <-. exists []. split; reflexivity.
Qed.

(** X9.  The field validator of a date and the existence check of a
    schedule agree: without repetition the existence check passes exactly
    when the field validator accepts the date, and with any repetition a
    schedule that passes the existence check has a date that the field
    validator accepts. *)
Theorem exist_week_validators_agree (db : DB) (self : Schedule) :
  (Validators.validate_exist_week db (date self) = Ok (date self)
   <-> exists w, encloses db w (date self))
  /\ (Validators.validate_exist_week db (date self) = Ok (date self)
      \/ Validators.validate_exist_week db (date self)
         = Raise (ValidationError [NotExistWeek]))
  /\ (ScheduleMixin.validate_exist_weeks db (with_repetition self None None) = Ok tt
      <-> Validators.validate_exist_week db (date self) = Ok (date self))
  /\ (ScheduleMixin.validate_exist_weeks db self = Ok tt ->
      Validators.validate_exist_week db (date self) = Ok (date self)).
Proof.
  assert (Hv : Validators.validate_exist_week db (date self)
               = match ScheduleMixin.get_related_obj db (date self) with
                 | None => Raise (ValidationError [NotExistWeek])
                 | Some _ => Ok (date self)
                 end) by reflexivity.
  rewrite Hv.
  split; [|split; [|split]].
  - destruct (ScheduleMixin.get_related_obj db (date self)) as [w|] eqn:E.
    + split; [|reflexivity]. intros _. exists w. now apply get_related_obj_Some.
    + split; [discriminate|]. intros [w Hw].
      rewrite get_related_obj_None in E. now destruct (E w).
  - destruct (ScheduleMixin.get_related_obj db (date self)); auto.
  - unfold ScheduleMixin.validate_exist_weeks.
    rewrite (no_expansion_when_falsy db (with_repetition self None None)) by reflexivity.
    cbn [bind with_repetition date existsb].
    destruct (ScheduleMixin.get_related_obj db (date self)); simpl;
      split; intros Hx; try discriminate; reflexivity.
  - intros Hok.
    destruct (ScheduleMixin.get_related_week_objects db self) as [ws|e] eqn:Hws.
    + destruct (week_objects_base_last db self ws Hws) as [front ->].
      apply (validate_exist_weeks_cases db self _ Hws) in Hok.
      destruct (ScheduleMixin.get_related_obj db (date self)); [reflexivity|].
      exfalso. apply Hok. apply in_or_app. right. now left.
    + unfold ScheduleMixin.validate_exist_weeks in Hok. rewrite Hws in Hok.
      discriminate.
Qed.

(** ** The end-date validator *)

(** X10.  [correct_end] returns a date unchanged exactly when it is not
    strictly between the bounds of either of its own two windows, and
    refuses it as non-instructional otherwise; unlike [correct_start] it
    accepts a date before the current month. *)
Theorem correct_end_cases (S : Settings) (d : Datetime.date) :
  let inside :=
    CURRENT_START_JULY DATES < d < CURRENT_END_AUGUST DATES
    \/ NEXT_START_JULY DATES < d < NEXT_END_AUGUST DATES in
  (Validators.correct_end d = Ok d <-> ~ inside)
  /\ (Validators.correct_end d = Raise (ValidationError [NonInstructionalPeriod])
      <-> inside)
  /\ (forall first,
        Datetime.mk_date CURRENT_YEAR CURRENT_MONTH 1 = Ok first ->
        d < first -> ~ inside ->
        Validators.correct_start d = Raise (ValidationError [PastDateRejected])
        /\ Validators.correct_end d = Ok d).
Proof.
  intros inside. subst inside. unfold Validators.correct_end.
  destruct ((CURRENT_START_JULY DATES <? d) && (d <? CURRENT_END_AUGUST DATES)
            || (NEXT_START_JULY DATES <? d) && (d <? NEXT_END_AUGUST DATES)) eqn:E.
  - split; [|split].
    + split; [discriminate|]. intros Hno. exfalso. apply Hno. lia.
    + split; [|reflexivity]. intros _. lia.
    + intros first _ _ Hno. exfalso. apply Hno. lia.
  - split; [|split].
    + split; [|reflexivity]. intros _. lia.
    + split; [discriminate|]. lia.
    + intros first Hfirst Hlt _. split; [|reflexivity].
      unfold Validators.correct_start. rewrite Hfirst. cbn [bind].
      destruct (d <? first) eqn:E2; [reflexivity|lia].
Qed.

(** ** The conflict check, as it runs *)

(** X11.  Once the weeks are resolved, the conflict check raises
    ScheduleCollision exactly when one of the week objects holds a stored
    schedule of the same author on the same weekday that differs, by primary
    key, from the first stored schedule with the date and author of the
    candidate; otherwise it returns. *)
Theorem conflict_check_cases (db : DB) (self : Schedule) (ws : list (option Week)) :
  ScheduleMixin.get_related_week_objects db self = Ok ws ->
  let clash :=
    exists w x,
      In w ws /\ In x (schedules db)
      /\ author x = author self
      /\ week_is (week x) w = true
      /\ Datetime.weekday (date x) = Datetime.weekday (date self)
      /\ model_ne x (current_schedule_of db self) = true in
  (ScheduleMixin.validate_exist_schedule db self
     = Raise (ValidationError [ScheduleCollision]) <-> clash)
  /\ (ScheduleMixin.validate_exist_schedule db self = Ok tt <-> ~ clash).
Proof.
  intros Hws clash. subst clash.
  pose proof (validate_exist_schedule_Ok db self ws Hws) as Hok.
  assert (Hno : ScheduleMixin.validate_exist_schedule db self = Ok tt
                <-> ~ exists w x,
                      In w ws /\ In x (schedules db)
                      /\ author x = author self
                      /\ week_is (week x) w = true
                      /\ Datetime.weekday (date x) = Datetime.weekday (date self)
                      /\ model_ne x (current_schedule_of db self) = true).
  { rewrite Hok. split.
    - intros Hall [w [x [Hw [Hx [Ha [Hwk [Hd Hne]]]]]]].
      rewrite (Hall w x Hw Hx Ha Hwk Hd) in Hne. discriminate.
    - intros Hnot w x Hw Hx Ha Hwk Hd.
      destruct (model_ne x (current_schedule_of db self)) eqn:E; [|reflexivity].
      exfalso. apply Hnot. exists w, x. auto 10. }
  split; [|exact Hno].
  destruct (validate_exist_schedule_outcomes db self ws Hws) as [Hr|Hr].
  - rewrite Hr. split; [discriminate|]. intros Hc. apply Hno in Hr. now destruct Hr.
  - split; [intros _|intros _; exact Hr].
    unfold ScheduleMixin.validate_exist_schedule in Hr. rewrite Hws in Hr.
    cbn [bind] in Hr. fold (current_schedule_of db self) in Hr.
    apply for_each_Raise in Hr. destruct Hr as [w [Hw Hr]].
    apply for_each_Raise in Hr. destruct Hr as [x [Hx Hr]].
    apply filter_In in Hx. destruct Hx as [Hx Hb].
    apply andb_true_iff in Hb. destruct Hb as [Ha Hwk].
    destruct ((Datetime.weekday (date x) =? Datetime.weekday (date self))
              && model_ne x (current_schedule_of db self)) eqn:Ec; [|discriminate].
    apply andb_true_iff in Ec. destruct Ec as [Hd Hne].
    exists w, x. repeat split; auto; lia.
Qed.

(** A run of X11: the repeat of the schedule of 25 December 2023 lands on
    the stored Monday schedule of its author and is refused. *)
Lemma conflict_check_cases_witness :
  ScheduleMixin.get_related_week_objects sample_db repeated_onto_monday_of_A
  = Ok [Some W1; None]
  /\ ScheduleMixin.validate_exist_schedule sample_db repeated_onto_monday_of_A
     = Raise (ValidationError [ScheduleCollision]).
Proof.
  assert (Hws : ScheduleMixin.get_related_week_objects sample_db repeated_onto_monday_of_A
                = Ok [Some W1; None]) by reflexivity.
  split; [exact Hws|].
  apply (conflict_check_cases sample_db repeated_onto_monday_of_A _ Hws).
  exists (Some W1), monday_of_A.
  split; [now left|]. split; [now left|]. repeat split; reflexivity.
Defined.

Lemma for_each_filter_skip {A : Type} (r q : A -> bool) (l : list A)
      (body : A -> result unit) :
  (forall x, r x = true -> q x = false -> body x = Ok tt) ->
  for_each (filter r (filter q l)) body = for_each (filter r l) body.
Proof.
  intros Hskip. induction l as [|a l IH]; simpl; [reflexivity|].
  destruct (q a) eqn:Eq; simpl.
  - destruct (r a); simpl; now rewrite IH.
  - destruct (r a) eqn:Er; simpl; [|exact IH].
    rewrite (Hskip a Er Eq). simpl. exact IH.
Qed.

(** X12.  Only the stored schedules of the same author on the same weekday
    take part in the conflict check: the check gives the same result on the
    store reduced to those rows. *)
Theorem only_same_author_and_weekday_matter (db : DB) (self : Schedule) :
  ScheduleMixin.validate_exist_schedule db self
  = ScheduleMixin.validate_exist_schedule (same_author_and_weekday db self) self.
Proof.
  unfold ScheduleMixin.validate_exist_schedule.
  change (ScheduleMixin.get_related_week_objects (same_author_and_weekday db self) self)
    with (ScheduleMixin.get_related_week_objects db self).
  destruct (ScheduleMixin.get_related_week_objects db self) as [ws|e];
    [|reflexivity].
  cbn [bind schedules same_author_and_weekday].
  rewrite find_filter_implied.
  - apply for_each_ext. intros w. symmetry. apply for_each_filter_skip.
    intros x Hr Hq. apply andb_true_iff in Hr. destruct Hr as [Ha _].
    rewrite Ha in Hq. simpl in Hq. rewrite Hq. reflexivity.
  - intros x Hx. apply andb_true_iff in Hx. destruct Hx as [Hd Ha].
    rewrite Ha. apply Z.eqb_eq in Hd. rewrite Hd. now rewrite Z.eqb_refl.
Qed.

(** ** Looking a schedule up by date and author *)

Lemma filter_single {A : Type} (key : A -> option Z) (q : A -> bool)
      (l : list A) (x : A) :
  NoDup (map key l) -> In x l -> q x = true ->
  (forall y, In y l -> q y = true -> key y = key x) ->
  filter q l = [x].
Proof.
  induction l as [|a l IH]; simpl; intros Hnd Hin Hq Hall; [destruct Hin|].
  inversion Hnd as [|? ? Hnotin Hnd']; subst.
  assert (Hrest : In x l -> key a <> key x).
  { intros Hx Heq. apply Hnotin. rewrite Heq. now apply in_map. }
  destruct Hin as [->|Hx].
  - rewrite Hq. f_equal.
    assert (Hnone : forall y, In y l -> q y = false).
    { intros y Hy. destruct (q y) eqn:Ey; [|reflexivity].
      exfalso. apply Hnotin. rewrite <- (Hall y (or_intror Hy) Ey).
      now apply in_map. }
    clear - Hnone. induction l as [|b l IH]; simpl; [reflexivity|].
    rewrite (Hnone b) by now left. apply IH. intros y Hy. apply Hnone. now right.
  - destruct (q a) eqn:Ea.
    + exfalso. apply (Hrest Hx). apply Hall; auto.
    + apply IH; auto.
Qed.

(** X13.  In a store without duplicate keys where an author has at most
    one schedule on a date, every stored schedule is found again: the date
    segment that parses to its date resolves, for its author, to that very
    record, and for any other user to no record of that author. *)
Theorem stored_schedule_is_found
  (U : UnicodeDigits) (db : DB) (x : Schedule) (date_str : string) :
  unique_keys db -> unique_date_author db ->
  In x (schedules db) ->
  Strptime.strptime_date date_str = Ok (date x) ->
  Shortcuts.get_object_or_404 db (date x) (author x) = Ok x
  /\ ScheduleChangeMixin.get_object db (author x) date_str = Ok x
  /\ forall user, user <> author x ->
       ScheduleChangeMixin.get_object db user date_str <> Ok x.
Proof.
  intros Hkeys Huniq Hin Hparse.
  assert (Hget : Shortcuts.get_object_or_404 db (date x) (author x) = Ok x).
  { unfold Shortcuts.get_object_or_404.
    rewrite (filter_single pk _ (schedules db) x); auto.
    - now rewrite !Z.eqb_refl.
    - intros y Hy Hq. apply Huniq; auto; lia. }
  split; [exact Hget|]. split.
  - unfold ScheduleChangeMixin.get_object. rewrite Hparse. cbn [bind].
    now rewrite Hget.
  - intros user Hne Hobj.
    unfold ScheduleChangeMixin.get_object in Hobj. rewrite Hparse in Hobj.
    cbn [bind] in Hobj.
    destruct (Shortcuts.get_object_or_404 db (date x) user) as [o|e] eqn:E;
      [|discriminate].
    cbn [bind] in Hobj. injection Hobj as ->.
    apply (proj2 (get_object_or_404_cases db (date x) user)) in E.
    destruct E as [_ [_ Ha]]. now apply Hne.
Qed.

(** A run of X13: author 1 finds the Monday schedule under 2024-01-01. *)
Lemma stored_schedule_is_found_witness :
  unique_keys sample_db /\ unique_date_author sample_db
  /\ ScheduleChangeMixin.get_object sample_db 1 "2024-01-01" = Ok monday_of_A.
Proof.
  assert (Hkeys : unique_keys sample_db).
  { unfold unique_keys. simpl. repeat constructor; simpl; intuition discriminate. }
  assert (Huniq : unique_date_author sample_db).
  { intros a b [<-|[<-|[<-|[]]]] [<-|[<-|[<-|[]]]] Hd Ha;
      try reflexivity; discriminate. }
  split; [exact Hkeys|]. split; [exact Huniq|].
  apply (stored_schedule_is_found fullwidth_digits sample_db monday_of_A "2024-01-01"
           Hkeys Huniq);
    [simpl; auto|reflexivity].
Defined.

Lemma filter_two {A : Type} (q : A -> bool) (l1 l2 l3 : list A) (a b : A) :
  q a = true -> q b = true ->
  exists c d rest, filter q (l1 ++ a :: l2 ++ b :: l3) = c :: d :: rest.
Proof.
  intros Ha Hb. rewrite filter_app. simpl. rewrite Ha, filter_app. simpl. rewrite Hb.
  destruct (filter q l1) as [|c [|d rest]]; simpl.
  - destruct (filter q l2) as [|d rest]; simpl; eauto.
  - eauto.
  - eauto.
Qed.

(** X14.  Two stored schedules of one author on one date make that date
    unreachable for the author: the lookup raises MultipleObjectsReturned,
    neither a record nor NotFound. *)
Theorem duplicate_date_breaks_lookup
  (U : UnicodeDigits) (db : DB) (l1 l2 l3 : list Schedule) (a b : Schedule)
  (date_str : string) :
  schedules db = l1 ++ a :: l2 ++ b :: l3 ->
  date a = date b -> author a = author b ->
  Strptime.strptime_date date_str = Ok (date a) ->
  Shortcuts.get_object_or_404 db (date a) (author a) = Raise MultipleObjectsReturned
  /\ ScheduleChangeMixin.get_object db (author a) date_str
     = Raise MultipleObjectsReturned.
Proof.
  intros Hrows Hd Ha Hparse.
  assert (Hget : Shortcuts.get_object_or_404 db (date a) (author a)
                 = Raise MultipleObjectsReturned).
  { unfold Shortcuts.get_object_or_404. rewrite Hrows.
    destruct (filter_two (fun x => (date x =? date a) && (author x =? author a))
                         l1 l2 l3 a b) as [c [d [rest ->]]].
    - now rewrite !Z.eqb_refl.
    - rewrite <- Hd, <- Ha. now rewrite !Z.eqb_refl.
    - reflexivity. }
  split; [exact Hget|].
  unfold ScheduleChangeMixin.get_object. rewrite Hparse. cbn [bind].
  now rewrite Hget.
Qed.

(** A run of X14: once a second Monday schedule of author 1 is stored, the
    segment 2024-01-01 no longer resolves for that author. *)
Lemma duplicate_date_breaks_lookup_witness :
  schedules duplicate_db
  = [] ++ monday_of_A :: [monday_of_B; tuesday_of_A] ++ saved_second_monday_of_A :: []
  /\ ScheduleChangeMixin.get_object duplicate_db 1 "2024-01-01"
     = Raise MultipleObjectsReturned.
Proof.
  split; [reflexivity|].
  apply (duplicate_date_breaks_lookup fullwidth_digits duplicate_db []
           [monday_of_B; tuesday_of_A] []
           monday_of_A saved_second_monday_of_A "2024-01-01");
    reflexivity.
Defined.

(** ** The lists of the day-list and profile pages *)

Lemma weekday_range (d : Datetime.date) : 0 <= Datetime.weekday d < 7.
Proof. unfold Datetime.weekday. apply Z.mod_pos_bound. lia. Qed.

(** The lookup [date__week_day = d.weekday() + 2] selects the dates on the
    weekday of [d], and none when [d] is a Sunday. *)
Lemma week_day_lookup (a d : Datetime.date) :
  (week_day a =? Datetime.weekday d + 2) = true
  <-> Datetime.weekday a = Datetime.weekday d /\ Datetime.weekday d <> 6.
Proof.
  unfold week_day.
  pose proof (weekday_range a) as Ha. pose proof (weekday_range d) as Hd.
  rewrite Z.eqb_eq.
  generalize dependent (Datetime.weekday a). generalize dependent (Datetime.weekday d).
  intros wd Hd wa Ha. split; intros Hx; Z.div_mod_to_equations; lia.
Qed.

Lemma same_weekday_within_six (a b : Datetime.date) :
  Datetime.weekday a = Datetime.weekday b -> -6 <= a - b <= 6 -> a = b.
Proof.
  unfold Datetime.weekday. intros Hw Hd. Z.div_mod_to_equations. lia.
Qed.

Lemma day_list_value (db : DB) (user : Z) (w : Week) :
  Datetime.valid_date (week_start w) ->
  Datetime.valid_date (week_start w + 6) ->
  DayListView.get_queryset db user w
  = Ok (map (fun number =>
               (week_start w + number,
                find (fun x => (week_day (date x)
                                =? Datetime.weekday (week_start w + number) + 2)
                               && (author x =? user)
                               && week_is (week x) (Some w))
                     (schedules db)))
            (range 0 7)).
Proof.
  intros Hs He. unfold DayListView.get_queryset.
  apply map_each_pure. intros k Hk. apply in_range in Hk.
  assert (Hv : Datetime.valid_date (week_start w + k))
    by (unfold Datetime.valid_date in *; lia).
  destruct (add_timedelta_valid _ _ Hs Hv) as [Htd Hadd].
  rewrite Htd. cbn [bind]. rewrite Hadd. reflexivity.
Qed.

Lemma day_list_facts (db : DB) (user : Z) (w : Week) :
  Datetime.valid_date (week_start w) ->
  Datetime.valid_date (week_start w + 6) ->
  exists l,
    DayListView.get_queryset db user w = Ok l
    /\ map fst l = map (fun number => week_start w + number) [0; 1; 2; 3; 4; 5; 6]
    /\ (forall d x, In (d, Some x) l ->
          In x (schedules db) /\ author x = user
          /\ week_is (week x) (Some w) = true
          /\ Datetime.weekday (date x) = Datetime.weekday d
          /\ Datetime.weekday d <> 6)
    /\ (forall d o, In (d, o) l -> Datetime.weekday d = 6 -> o = None).
Proof.
  intros Hs He. eexists. split; [apply (day_list_value db user w Hs He)|].
  split; [reflexivity|]. split.
  - intros d x Hin. apply in_map_iff in Hin. destruct Hin as [k [Hk _]].
    injection Hk as <- Hf. apply find_some in Hf. destruct Hf as [Hx Hb].
    apply andb_true_iff in Hb. destruct Hb as [Hb Hwk].
    apply andb_true_iff in Hb. destruct Hb as [Hday Ha].
    apply week_day_lookup in Hday. destruct Hday as [Hday Hsun].
    repeat split; auto. lia.
  - intros d o Hin Hsun. apply in_map_iff in Hin. destruct Hin as [k [Hk _]].
    injection Hk as <- <-.
    apply find_None_iff. intros x _.
    destruct (week_day (date x) =? Datetime.weekday (week_start w + k) + 2) eqn:E;
      [|reflexivity].
    apply week_day_lookup in E. now destruct E.
Qed.

(** X15.  For a week whose seven days are dates, the day list has seven
    entries, for the start of the week and the six following days in order;
    a schedule shown for a day is a stored schedule of the requesting user
    that points to this week and falls on the weekday of that day, and the
    entry of a Sunday never shows a schedule. *)
Theorem day_list_entries (db : DB) (user : Z) (w : Week) :
  Datetime.valid_date (week_start w) ->
  Datetime.valid_date (week_start w + 6) ->
  exists l,
    DayListView.get_queryset db user w = Ok l
    /\ map fst l = map (fun number => week_start w + number) [0; 1; 2; 3; 4; 5; 6]
    /\ (forall d x, In (d, Some x) l ->
          In x (schedules db) /\ author x = user
          /\ week_is (week x) (Some w) = true
          /\ Datetime.weekday (date x) = Datetime.weekday d
          /\ Datetime.weekday d <> 6)
    /\ (forall d o, In (d, o) l -> Datetime.weekday d = 6 -> o = None).
Proof. exact (day_list_facts db user w). Qed.

(** A run of X15 on the week of 1 January 2024 for author 1: Monday and
    Tuesday show the two schedules of the author. *)
Lemma day_list_entries_witness :
  Datetime.valid_date (week_start W1) /\ Datetime.valid_date (week_start W1 + 6)
  /\ DayListView.get_queryset sample_db 1 W1
     = Ok [ (d2024_01_01, Some monday_of_A); (d2024_01_01 + 1, Some tuesday_of_A);
            (d2024_01_01 + 2, None); (d2024_01_01 + 3, None); (d2024_01_01 + 4, None);
            (d2024_01_01 + 5, None); (d2024_01_01 + 6, None) ].
Proof.
  assert (Hs : Datetime.valid_date (week_start W1)) by (vm_compute; split; discriminate).
  assert (He : Datetime.valid_date (week_start W1 + 6)) by (vm_compute; split; discriminate).
  destruct (day_list_entries sample_db 1 W1 Hs He) as [l [Hl _]].
  split; [exact Hs|]. split; [exact He|]. reflexivity.
Defined.

(** X16.  When the week has seven days and every stored schedule is dated
    within the week it points to, the day list is exact and complete: a
    schedule shown for a day is dated on that day, and every schedule of
    the user in this week that is not on a Sunday has its day showing a
    schedule of the user dated on it. *)
Theorem day_list_exact_and_complete (db : DB) (user : Z) (w : Week) :
  Datetime.valid_date (week_start w) ->
  Datetime.valid_date (week_start w + 6) ->
  In w (weeks db) ->
  week_end w = week_start w + 6 ->
  dated_within_weeks db ->
  exists l,
    DayListView.get_queryset db user w = Ok l
    /\ (forall d x, In (d, Some x) l -> date x = d)
    /\ (forall x, In x (schedules db) -> author x = user ->
          week_is (week x) (Some w) = true ->
          Datetime.weekday (date x) <> 6 ->
          exists y, In (date x, Some y) l /\ author y = user /\ date y = date x).
Proof.
  intros Hs He Hw Hlen Hdated.
  destruct (day_list_facts db user w Hs He) as [l [Hl [Hdates [Hsound _]]]].
  assert (Hdays : forall d o, In (d, o) l -> week_start w <= d <= week_start w + 6).
  { intros d o Hin. apply (in_map fst) in Hin. rewrite Hdates in Hin. simpl in Hin.
    intuition lia. }
  assert (Hexact : forall d x, In (d, Some x) l -> date x = d).
  { intros d x Hin. destruct (Hsound d x Hin) as [Hx [_ [Hwk [Hday _]]]].
    pose proof (Hdated x w Hx Hw Hwk) as Hrange. pose proof (Hdays d _ Hin) as Hd.
    apply same_weekday_within_six; [exact Hday|lia]. }
  exists l. split; [exact Hl|]. split; [exact Hexact|].
  intros x Hx Ha Hwk Hsun.
  pose proof (Hdated x w Hx Hw Hwk) as Hrange.
  rewrite (day_list_value db user w Hs He) in Hl. injection Hl as <-.
  set (p := fun y => (week_day (date y) =? Datetime.weekday (date x) + 2)
                     && (author y =? user) && week_is (week y) (Some w)).
  assert (Hp : p x = true).
  { unfold p. rewrite Hwk, andb_true_r. apply andb_true_iff. split; [|lia].
    apply week_day_lookup. auto. }
  destruct (find p (schedules db)) as [y|] eqn:Ef;
    [|rewrite (find_none _ _ Ef x Hx) in Hp; discriminate].
  assert (Hentry : In (date x, Some y)
                      (map (fun number =>
                              (week_start w + number,
                               find (fun x0 => (week_day (date x0)
                                                =? Datetime.weekday (week_start w + number) + 2)
                                               && (author x0 =? user)
                                               && week_is (week x0) (Some w))
                                    (schedules db)))
                           (range 0 7))).
  { apply in_map_iff. exists (date x - week_start w). split.
    - replace (week_start w + (date x - week_start w)) with (date x)
        by (unfold Datetime.date in *; lia).
      fold p. now rewrite Ef.
    - apply in_range. lia. }
  exists y. split; [exact Hentry|].
  destruct (Hsound _ _ Hentry) as [_ [Hay _]].
  split; [exact Hay|]. now apply Hexact.
Qed.

(** A run of X16 on the week of 1 January 2024 for author 1. *)
Lemma day_list_exact_and_complete_witness :
  dated_within_weeks sample_db
  /\ exists l, DayListView.get_queryset sample_db 1 W1 = Ok l
               /\ In (date tuesday_of_A, Some tuesday_of_A) l.
Proof.
  assert (Hs : Datetime.valid_date (week_start W1)) by (vm_compute; split; discriminate).
  assert (He : Datetime.valid_date (week_start W1 + 6)) by (vm_compute; split; discriminate).
  assert (Hdated : dated_within_weeks sample_db).
  { intros x w [<-|[<-|[<-|[]]]] [<-|[<-|[<-|[]]]] Hwk;
      try discriminate; vm_compute; split; discriminate. }
  split; [exact Hdated|].
  destruct (day_list_exact_and_complete sample_db 1 W1 Hs He) as [l [Hl _]];
    [simpl; auto|reflexivity|exact Hdated|].
  exists l. split; [exact Hl|].
  assert (Hv : DayListView.get_queryset sample_db 1 W1
               = Ok [ (d2024_01_01, Some monday_of_A); (d2024_01_01 + 1, Some tuesday_of_A);
                      (d2024_01_01 + 2, None); (d2024_01_01 + 3, None);
                      (d2024_01_01 + 4, None); (d2024_01_01 + 5, None);
                      (d2024_01_01 + 6, None) ]) by reflexivity.
  rewrite Hv in Hl. injection Hl as <-. right. now left.
Defined.

(** X17.  The profile list has two entries, for the configured current day
    and next day in that order, labelled today and tomorrow; a schedule
    shown for a day is a stored schedule of the requesting user on the
    weekday of that day, in the week object resolved for the day; a Sunday
    shows none; and when the weeks have seven days and the stored schedules
    are dated within their weeks, a shown schedule that points to a week is
    dated on that very day. *)
Theorem profile_entries (D : DaySettings) (db : DB) (user : Z) :
  exists o1 o2,
    ProfileView.get_queryset db user
    = [ (o1, CURRENT_DAY, ProfileView.today); (o2, NEXT_DAY, ProfileView.tomorrow) ]
    /\ forall o day title, In (o, day, title) (ProfileView.get_queryset db user) ->
         (forall x, o = Some x ->
            In x (schedules db) /\ author x = user
            /\ week_is (week x) (ScheduleMixin.get_related_obj db day) = true
            /\ Datetime.weekday (date x) = Datetime.weekday day)
         /\ (Datetime.weekday day = 6 -> o = None)
         /\ (dated_within_weeks db ->
             (forall w, In w (weeks db) -> week_end w = week_start w + 6) ->
             forall x, o = Some x -> week x <> None -> date x = day).
Proof.
  eexists. eexists. split; [reflexivity|].
  assert (Hone : forall day,
            let o := find (fun x => (week_day (date x) =? Datetime.weekday day + 2)
                                    && (author x =? user)
                                    && week_is (week x) (ScheduleMixin.get_related_obj db day))
                          (schedules db) in
            (forall x, o = Some x ->
               In x (schedules db) /\ author x = user
               /\ week_is (week x) (ScheduleMixin.get_related_obj db day) = true
               /\ Datetime.weekday (date x) = Datetime.weekday day)
            /\ (Datetime.weekday day = 6 -> o = None)
            /\ (dated_within_weeks db ->
                (forall w, In w (weeks db) -> week_end w = week_start w + 6) ->
                forall x, o = Some x -> week x <> None -> date x = day)).
  { intros day o.
    assert (Hsound : forall x, o = Some x ->
              In x (schedules db) /\ author x = user
              /\ week_is (week x) (ScheduleMixin.get_related_obj db day) = true
              /\ Datetime.weekday (date x) = Datetime.weekday day).
    { intros x Hf. apply find_some in Hf. destruct Hf as [Hx Hb].
      apply andb_true_iff in Hb. destruct Hb as [Hb Hwk].
      apply andb_true_iff in Hb. destruct Hb as [Hday Ha].
      apply week_day_lookup in Hday. destruct Hday as [Hday _].
      repeat split; auto. lia. }
    split; [exact Hsound|]. split.
    - intros Hsun. apply find_None_iff. intros x _.
      destruct (week_day (date x) =? Datetime.weekday day + 2) eqn:E; [|reflexivity].
      apply week_day_lookup in E. now destruct E.
    - intros Hdated Hseven x Hf Hweek.
      destruct (Hsound x Hf) as [Hx [_ [Hwk Hday]]].
      destruct (ScheduleMixin.get_related_obj db day) as [w|] eqn:Ew.
      + apply get_related_obj_Some in Ew. destruct Ew as [Hw Hin].
        pose proof (Hdated x w Hx Hw Hwk) as Hrange.
        pose proof (Hseven w Hw) as Hlen.
        apply same_weekday_within_six; [exact Hday|lia].
      + simpl in Hwk. destruct (week x); [discriminate|]. now destruct Hweek. }
  intros o day title [Hin|[Hin|[]]]; injection Hin as <- <- _; apply Hone.
Qed.
